(** * database2.py: measurement storage in a relational database

  A shallow embedding of the two connector classes of [database2.py]
  ([DatabaseConnector] over SQLite, [PostgreSQLConnector] over
  PostgreSQL through psycopg2) together with the part of the two
  storage engines that the SQL statements of the file exercise, and the
  properties of the registration / storage operations proved on it. *)

From Stdlib Require Import ZArith String List Floats Lia Bool.
From stdpp Require Import base option gmap strings list.

#[local] Set Warnings "-inexact-float".

Local Open Scope Z_scope.
Local Open Scope string_scope.

(** ** Python runtime: exceptions and the state-and-exception monad *)

Module Py.

(** The exception classes that the modelled code can raise.  The first four
    are Python builtins, the next four are the DB-API classes shared by
    [sqlite3] and [psycopg2].  [OutsideFragment] is not a Python exception:
    it marks a statement whose effect depends on engine behaviour that the
    model does not cover (column affinity conversions, explicit row ids,
    exhausted row ids). *)
Inductive exception : Set :=
| NameError | KeyError | TypeError | IndexError
| OperationalError | ProgrammingError | IntegrityError | InternalError
| OutsideFragment.

Inductive outcome (A : Type) : Type :=
| Return (a : A)
| Raise (e : exception).
Arguments Return {A} a.
Arguments Raise {A} e.

(** A method body: it reads and mutates the object state [S] and either
    returns or raises; mutations made before a raise persist. *)
Definition M (S A : Type) : Type := S -> outcome A * S.

Definition ret {S A} (a : A) : M S A := fun s => (Return a, s).
Definition raise {S A} (e : exception) : M S A := fun s => (Raise e, s).
Definition bind {S A B} (m : M S A) (k : A -> M S B) : M S B :=
  fun s => match m s with
           | (Return a, s') => k a s'
           | (Raise e, s') => (Raise e, s')
           end.
Definition gets {S A} (f : S -> A) : M S A := fun s => (Return (f s), s).
Definition modify {S} (f : S -> S) : M S unit := fun s => (Return tt, f s).

(** [t[i]] on a tuple or list, for a literal index [i >= 0]. *)
Definition index {S A} (t : list A) (i : nat) : M S A :=
  match t !! i with
  | Some a => ret a
  | None => raise IndexError
  end.

(** [r[i]] where [r] is the result of a call that may return [None]:
    subscripting [None] raises [TypeError]. *)
Definition subscript {S A} (r : option (list A)) (i : nat) : M S A :=
  match r with
  | Some t => index t i
  | None => raise TypeError
  end.

End Py.
Export Py.

Declare Scope py_scope.
Delimit Scope py_scope with py.
Notation "'let*' x ':=' c 'in' k" := (bind c (fun x => k))
(at level 10, x name, c at level 100, k at level 200) : py_scope.
Notation "c ';;;' k" := (bind c (fun _ => k))
(at level 100, k at level 200, right associativity) : py_scope.
Local Open Scope py_scope.

(** ** The relational data model (the DDL of [_create_database]) *)

Module SQL.

(** Values exchanged with the engine as statement parameters and result
    columns: Python [None] / SQL NULL, [int] / INTEGER, [str] / TEXT. *)
Inductive value : Set :=
| Null
| Integer (z : Z)
| Text (s : string).

#[global] Instance value_eq_dec : EqDecision value.
Proof. solve_decision. Defined.

#[global] Instance value_countable : Countable value.
Proof.
  refine (inj_countable'
    (fun v => match v with
              | Null => inl tt
              | Integer z => inr (inl z)
              | Text s => inr (inr s)
              end)
    (fun x => match x with
              | inl _ => Null
              | inr (inl z) => Integer z
              | inr (inr s) => Text s
              end) _).
  by intros [].
Defined.

(** A row of one of the three name tables.
    - [units (id INTEGER, name TEXT NOT NULL UNIQUE, PRIMARY KEY(id))]
    - [type (id, name TEXT NOT NULL UNIQUE, units INTEGER, ...)]
    - [sensor (id, name TEXT NOT NULL UNIQUE, type INTEGER NOT NULL, ...)]
    [row_ref] is the foreign-key column ([units] of a type row, [type] of a
    sensor row); the units table has no such column and its rows carry
    [None] there. *)
Record row : Set := { row_id : Z; row_name : string; row_ref : option Z }.

(** A row of [measurement (timestamp TEXT NOT NULL, sensor INTEGER NOT NULL,
    value REAL NOT NULL, PRIMARY KEY(timestamp,sensor))]. *)
Record measurement_row : Set :=
  { m_timestamp : string; m_sensor : Z; m_value : float }.

(** The four tables, each in insertion order. *)
Record Database : Set :=
  { units : list row;
    type : list row;
    sensor : list row;
    measurement : list measurement_row }.

Definition empty_database : Database :=
  {| units := []; type := []; sensor := []; measurement := [] |}.

(** The three name tables, addressed by their SQL name. *)
Inductive level : Set := Units | Type_ | Sensor_.

Definition level_of_table (table : string) : option level :=
  if String.eqb table "units" then Some Units
  else if String.eqb table "type" then Some Type_
  else if String.eqb table "sensor" then Some Sensor_
  else None.

Definition rows_of (lv : level) (db : Database) : list row :=
  match lv with
  | Units => units db
  | Type_ => type db
  | Sensor_ => sensor db
  end.

Definition with_rows (lv : level) (rs : list row) (db : Database) : Database :=
  match lv with
  | Units => {| units := rs; type := type db; sensor := sensor db;
                measurement := measurement db |}
  | Type_ => {| units := units db; type := rs; sensor := sensor db;
                measurement := measurement db |}
  | Sensor_ => {| units := units db; type := type db; sensor := rs;
                  measurement := measurement db |}
  end.

Definition with_measurement (ms : list measurement_row) (db : Database)
  : Database :=
  {| units := units db; type := type db; sensor := sensor db;
     measurement := ms |}.

(** Column names per table; [None] for a table that does not exist. *)
Definition columns (table : string) : option (list string) :=
  if String.eqb table "units" then Some ["id"; "name"]
  else if String.eqb table "type" then Some ["id"; "name"; "units"]
  else if String.eqb table "sensor" then Some ["id"; "name"; "type"]
  else if String.eqb table "measurement"
       then Some ["timestamp"; "sensor"; "value"]
  else None.

Definition has_column (cs : list string) (c : string) : bool :=
  existsb (String.eqb c) cs.

(** The foreign-key column of a name table and whether it is NOT NULL, and
    the table it references. *)
Definition reference_column (lv : level) : option string :=
  match lv with
  | Units => None
  | Type_ => Some "units"
  | Sensor_ => Some "type"
  end.

Definition reference_not_null (lv : level) : bool :=
  match lv with
  | Sensor_ => true
  | _ => false
  end.

Definition is_reference_column (lv : level) (c : string) : bool :=
  match reference_column lv with
  | Some c' => String.eqb c c'
  | None => false
  end.

Definition referenced_level (lv : level) : option level :=
  match lv with
  | Units => None
  | Type_ => Some Units
  | Sensor_ => Some Type_
  end.

(** The row proposed by [INSERT INTO table (cols) VALUES (items)] before any
    constraint is looked at: the name (NULL as [None]) and the reference.
    Only the column lists [(name)] and [(name, <reference column>)] with a
    TEXT-or-NULL name and an INTEGER-or-NULL reference are covered. *)
Definition proposed_name (v : value) : outcome (option string) :=
  match v with
  | Null => Return None
  | Text s => Return (Some s)
  | Integer _ => Raise OutsideFragment
  end.

Definition proposed_ref (v : value) : outcome (option Z) :=
  match v with
  | Null => Return None
  | Integer z => Return (Some z)
  | Text _ => Raise OutsideFragment
  end.

Definition proposed_row (lv : level) (cols : list string) (items : list value)
  : outcome (option string * option Z) :=
  match cols, items with
  | [c0], [v0] =>
      if String.eqb c0 "name" then
        match proposed_name v0 with
        | Return n => Return (n, None)
        | Raise e => Raise e
        end
      else Raise OutsideFragment
  | [c0; c1], [v0; v1] =>
      if String.eqb c0 "name" && is_reference_column lv c1 then
        match proposed_name v0, proposed_ref v1 with
        | Return n, Return r => Return (n, r)
        | Raise e, _ => Raise e
        | _, Raise e => Raise e
        end
      else Raise OutsideFragment
  | _, _ => Raise OutsideFragment
  end.

Definition is_some {A} (o : option A) : bool :=
  match o with
  | Some _ => true
  | None => false
  end.

Definition name_taken (rs : list row) (s : string) : bool :=
  existsb (fun r => String.eqb (row_name r) s) rs.

Definition id_present (rs : list row) (i : Z) : bool :=
  existsb (fun r => Z.eqb (row_id r) i) rs.

Inductive violation : Set := NotNull | Unique.

(** The NOT NULL constraints, then UNIQUE(name), on a proposed row; a row
    that passes carries a text name. *)
Definition validate (lv : level) (rs : list row) (n : option string)
  (r : option Z) : violation + string :=
  match n with
  | None => inl NotNull
  | Some s =>
      if reference_not_null lv && negb (is_some r)
      then inl NotNull
      else if name_taken rs s then inl Unique
      else inr s
  end.

(** [SELECT id FROM table WHERE name = ?]: one 1-tuple per matching row, in
    table order.  [name = NULL] is never true. *)
Definition select_id (rs : list row) (s : string) : list (list value) :=
  map (fun r => [Integer (row_id r)])
      (filter (fun r => row_name r = s) rs).

Definition largest_id (rs : list row) : Z :=
  fold_right (fun r acc => Z.max (row_id r) acc) (-(2 ^ 63)) rs.

Arguments name_taken : simpl never.
Arguments select_id : simpl never.
Arguments largest_id : simpl never.

End SQL.
Export SQL.

(** ** The [sqlite3] module: connection, transactions, statements *)

Module Sqlite3.

(** A connection sees its own uncommitted changes ([working]); [commit]
    makes them durable ([committed]). *)
Record Connection : Set := { committed : Database; working : Database }.

(** [sqlite3.Connection(filename)] on a database file holding [file]. *)
Definition connect (file : Database) : Connection :=
  {| committed := file; working := file |}.

Definition commit : M Connection unit :=
  modify (fun conn => {| committed := working conn; working := working conn |}).

(** The result rows a cursor holds after [execute]. *)
Definition cursor : Set := list (list value).

Definition fetchone (curs : cursor) : option (list value) := head curs.

(** [id] is an INTEGER PRIMARY KEY, an alias of the rowid: a row inserted
    without an id gets 1 in an empty table and otherwise one more than the
    largest id present.  When the largest id is 2^63-1 the engine picks an
    unused id at random, which is not modelled. *)
Definition next_rowid (rs : list row) : outcome Z :=
  match rs with
  | [] => Return 1
  | _ :: _ =>
      if (largest_id rs <? 2 ^ 63 - 1)%Z then Return (largest_id rs + 1)%Z
      else Raise OutsideFragment
  end.

Arguments next_rowid : simpl never.

(** [INSERT OR IGNORE INTO table (cols) VALUES (?, ...)] bound to [items]:
    a row that violates NOT NULL or UNIQUE is skipped without error. *)
Definition insert_or_ignore (table : string) (cols : list string)
  (items : list value) (db : Database) : outcome Database :=
  match columns table with
  | None => Raise OperationalError
  | Some cs =>
      if negb (forallb (has_column cs) cols) then Raise OperationalError
      else if negb (length cols =? length items)%nat then Raise ProgrammingError
      else
        match level_of_table table with
        | None => Raise OutsideFragment
        | Some lv =>
            match proposed_row lv cols items with
            | Raise e => Raise e
            | Return (n, r) =>
                match validate lv (rows_of lv db) n r with
                | inl _ => Return db
                | inr s =>
                    match next_rowid (rows_of lv db) with
                    | Raise e => Raise e
                    | Return i =>
                        Return (with_rows lv
                                  (rows_of lv db ++
                                   [{| row_id := i; row_name := s;
                                       row_ref := r |}])
                                  db)
                    end
                end
            end
        end
  end.

(** [SELECT id FROM table WHERE name = ?] bound to [(v,)]. *)
Definition select_id_where_name (table : string) (v : value) (db : Database)
  : outcome cursor :=
  match columns table with
  | None => Raise OperationalError
  | Some cs =>
      if negb (has_column cs "id" && has_column cs "name")
      then Raise OperationalError
      else
        match level_of_table table, v with
        | Some lv, Null => Return []
        | Some lv, Text s => Return (select_id (rows_of lv db) s)
        | _, _ => Raise OutsideFragment
        end
  end.

Definition same_key (t : string) (i : Z) (m : measurement_row) : bool :=
  String.eqb (m_timestamp m) t && Z.eqb (m_sensor m) i.

(** What a column declared [REAL] gives back for a Python [float] bound to
    it.  A float that is equal to an integer is kept as that integer and
    converted to a float again when it is read, which gives the same float
    back except for the negative zero: it is equal to the integer 0 and is
    read back as the positive zero.  Every other float is kept as it is
    (a NaN does not come this far, see [insert_measurement]). *)
Definition real_affinity (f : float) : float :=
  if PrimFloat.eqb f 0%float then 0%float else f.

(** [INSERT INTO measurement (timestamp, sensor, value) VALUES (?, ?, ?)]:
    a plain insert, every constraint violation is an [IntegrityError].  A NaN
    is bound as NULL.  Foreign keys are not enforced (the connection never
    turns them on).  [m_value] is the value a later SELECT returns
    ([real_affinity]). *)
Definition insert_measurement (timestamp sensor_id : value)
  (data : option float) (db : Database) : outcome Database :=
  match timestamp, sensor_id with
  | Integer _, _ | _, Text _ => Raise OutsideFragment
  | Text t, Integer i =>
      match data with
      | None => Raise IntegrityError
      | Some f =>
          if PrimFloat.is_nan f then Raise IntegrityError
          else if existsb (same_key t i) (measurement db)
               then Raise IntegrityError
          else Return (with_measurement
                         (measurement db ++
                          [{| m_timestamp := t; m_sensor := i;
                              m_value := real_affinity f |}])
                         db)
      end
  | _, _ => Raise IntegrityError
  end.

Inductive statement : Set :=
| INSERT_OR_IGNORE_INTO (table : string) (cols : list string)
    (items : list value)
| SELECT_id_WHERE_name (table : string) (name : value)
| INSERT_INTO_measurement (timestamp sensor_id : value)
    (data : option float).

Definition writing (r : outcome Database) : M Connection cursor :=
  fun conn =>
    match r with
    | Return db => (Return [], {| committed := committed conn; working := db |})
    | Raise e => (Raise e, conn)
    end.

(** [curs.execute(sql, params)]; the returned value is what the cursor holds
    afterwards.  A statement that raises changes nothing. *)
Definition execute (sql : statement) : M Connection cursor :=
  fun conn =>
    match sql with
    | INSERT_OR_IGNORE_INTO table cols items =>
        writing (insert_or_ignore table cols items (working conn)) conn
    | SELECT_id_WHERE_name table v =>
        match select_id_where_name table v (working conn) with
        | Return rows => (Return rows, conn)
        | Raise e => (Raise e, conn)
        end
    | INSERT_INTO_measurement t i d =>
        writing (insert_measurement t i d (working conn)) conn
    end.

(** [DROP TABLE IF EXISTS table; CREATE TABLE table (...);] run through
    [executescript]: pending changes are committed first and the script
    commits by itself.  The table is empty afterwards whether or not it
    existed before. *)
Definition drop_and_create (table : string) (db : Database) : Database :=
  match level_of_table table with
  | Some lv => with_rows lv [] db
  | None =>
      if String.eqb table "measurement" then with_measurement [] db else db
  end.

Definition executescript_drop_create (table : string) : M Connection unit :=
  modify (fun conn =>
    {| committed := drop_and_create table (working conn);
       working := drop_and_create table (working conn) |}).

End Sqlite3.

(** ** The value objects handed to the connectors

    The [Sensor] and [Measurement] classes are not part of the file; the
    connectors only call their accessors.  Names and timestamps are a [str]
    or [None], the measured value a [float] or [None]. *)

Record Sensor : Set :=
  { get_name : option string;
    get_type : option string;
    get_units : option string }.

Record Measurement : Set :=
  { get_id : option string;
    get_timestamp : option string;
    get_data : option float }.

Definition str_or_None (o : option string) : value :=
  match o with
  | Some s => Text s
  | None => Null
  end.

(** ** class DatabaseConnector *)

Module DatabaseConnector.

Import Sqlite3.

(** The instance attributes set by [__init__]. *)
Record Connector : Type :=
  { _connection : Connection;
    _units : gmap value value;
    _types : gmap value value;
    _sensors : gmap value value }.

(** The three dictionaries are passed to the nested helper by reference;
    the helper's [id_dict] parameter is the attribute it aliases. *)
Inductive attribute : Set := self_units | self_types | self_sensors.

Definition getattr (a : attribute) (self : Connector) : gmap value value :=
  match a with
  | self_units => _units self
  | self_types => _types self
  | self_sensors => _sensors self
  end.

Definition setitem (a : attribute) (k v : value) : M Connector unit :=
  modify (fun self =>
    match a with
    | self_units =>
        {| _connection := _connection self; _units := <[k := v]> (_units self);
           _types := _types self; _sensors := _sensors self |}
    | self_types =>
        {| _connection := _connection self; _units := _units self;
           _types := <[k := v]> (_types self); _sensors := _sensors self |}
    | self_sensors =>
        {| _connection := _connection self; _units := _units self;
           _types := _types self; _sensors := <[k := v]> (_sensors self) |}
    end).

(** [d[k]]: a missing key raises [KeyError]. *)
Definition getitem (a : attribute) (k : value) : M Connector value :=
  fun self =>
    match getattr a self !! k with
    | Some v => (Return v, self)
    | None => (Raise KeyError, self)
    end.

(** Run a connection operation on [self._connection]. *)
Definition on_connection {A} (m : M Connection A) : M Connector A :=
  fun self =>
    let '(r, conn) := m (_connection self) in
    (r, {| _connection := conn; _units := _units self;
           _types := _types self; _sensors := _sensors self |}).

(** The module namespace of [database2]: [_create_database] reads the name
    [sqlite3] from it (line 43).  The file itself binds [sqlite3] only as a
    local of [__init__] (line 17), so the lookup succeeds only where the
    importing environment provides the global. *)
Record Globals : Set := { sqlite3_bound : bool }.

(** [_create_database(self, filename)], where [file] is the content of the
    database file [filename]: the four tables are dropped and created again,
    in the order measurement, sensor, type, units. *)
Definition _create_database (globals : Globals) (file : Database)
  : outcome Connection :=
  if sqlite3_bound globals then
    let conn := connect file in
    let run :=
      executescript_drop_create "measurement" ;;;
      executescript_drop_create "sensor" ;;;
      executescript_drop_create "type" ;;;
      executescript_drop_create "units" ;;;
      commit in
    Return (snd (run conn))
  else Raise NameError.

Definition __init__ (globals : Globals) (database : Database)
  : outcome Connector :=
  match _create_database globals database with
  | Return conn =>
      Return {| _connection := conn;
                _units := ∅; _types := ∅; _sensors := ∅ |}
  | Raise e => Raise e
  end.

(** [store_measurement(self, meas)]. *)
Definition store_measurement (meas : Measurement) : M Connector unit :=
  let* name_id := getitem self_sensors (str_or_None (get_id meas)) in
  on_connection
    (execute (INSERT_INTO_measurement
                (str_or_None (get_timestamp meas)) name_id (get_data meas))) ;;;
  on_connection commit ;;;
  ret tt.

(** Lines 125-131 of the nested helper: the conflict-tolerant insert, its
    shape chosen by the lengths of [items] and [cols]. *)
Definition insert_items (items : list value) (table : string)
  (cols : list string) : M Connector cursor :=
  if ((length items =? 2)%nat && (length cols =? 2)%nat)%bool then
    let* c0 := index cols 0 in
    let* c1 := index cols 1 in
    on_connection (execute (INSERT_OR_IGNORE_INTO table [c0; c1] items))
  else
    let* c0 := index cols 0 in
    on_connection (execute (INSERT_OR_IGNORE_INTO table [c0] items)).

(** Lines 133-134: the lookup of the id by name. *)
Definition select_items (items : list value) (table : string)
  : M Connector cursor :=
  let* i0 := index items 0 in
  on_connection (execute (SELECT_id_WHERE_name table i0)).

(** Lines 132-139: the id is read from the first result row and remembered
    under the name unless the name is already a key. *)
Definition recall_id (items : list value) (table : string)
  (id_dict : attribute) : M Connector value :=
  let* curs := select_items items table in
  let* item_id := subscript (fetchone curs) 0 in
  let* i0 := index items 0 in
  let* d := gets (getattr id_dict) in
  (if bool_decide (d !! i0 = None) then setitem id_dict i0 item_id
   else ret tt) ;;;
  ret item_id.

(** The nested function [insert_and_recall_id(items, table, cols, id_dict)]
    of [register_sensor]. *)
Definition insert_and_recall_id (items : list value) (table : string)
  (cols : list string) (id_dict : attribute) : M Connector value :=
  insert_items items table cols ;;;
  recall_id items table id_dict.

(** The three resolutions of [register_sensor] (lines 145-151) with the ids
    they bind to [units_id], [type_id] and [sensor_id]. *)
Definition resolve_chain (sensor : Sensor)
  : M Connector (value * value * value) :=
  let* units_id :=
    insert_and_recall_id [str_or_None (get_units sensor)]
      "units" ["name"] self_units in
  let* type_id :=
    insert_and_recall_id [str_or_None (get_type sensor); units_id]
      "type" ["name"; "units"] self_types in
  let* sensor_id :=
    insert_and_recall_id [str_or_None (get_name sensor); type_id]
      "sensor" ["name"; "type"] self_sensors in
  ret (units_id, type_id, sensor_id).

(** [register_sensor(self, sensor)]. *)
Definition register_sensor (sensor : Sensor) : M Connector unit :=
  resolve_chain sensor ;;;
  on_connection commit ;;;
  ret tt.

End DatabaseConnector.

(** ** The [psycopg2] module: connection, transactions, statements *)

Module Psycopg2.

(** As for SQLite, plus the failed-transaction state: once a statement has
    raised a database error, every further statement on the connection
    raises until the transaction is ended, and nothing the transaction did
    is kept. *)
Record Connection : Set :=
  { committed : Database; working : Database; failed : bool }.

Definition connect (db : Database) : Connection :=
  {| committed := db; working := db; failed := false |}.

Definition abort (conn : Connection) : Connection :=
  {| committed := committed conn; working := committed conn; failed := true |}.

(** [COMMIT] in a failed transaction rolls it back. *)
Definition commit : M Connection unit :=
  modify (fun conn =>
    if failed conn then
      {| committed := committed conn; working := committed conn;
         failed := false |}
    else
      {| committed := working conn; working := working conn;
         failed := false |}).

Definition cursor : Set := list (list value).

Definition fetchone (curs : cursor) : option (list value) := head curs.

(** FOREIGN KEY: a non-null reference must name a row of the parent table. *)
Definition reference_exists (lv : level) (r : option Z) (db : Database)
  : bool :=
  match r, referenced_level lv with
  | Some z, Some parent => id_present (rows_of parent db) z
  | _, _ => true
  end.

Section Engine.

(** The id the storage engine gives a new row of each name table. *)
Variable generated_id : level -> list row -> Z.

(** Modelled from the spec: the PostgreSQL schema, which is created outside
    the repository.  Section 6 of the spec gives both backends the same
    columns and constraints (NOT NULL and UNIQUE on [name], the foreign keys,
    NOT NULL on [sensor.type]) and section 4.4 requires each table's
    uniqueness constraint on [name] to carry the name the connector passes,
    [<table>_name_key]; ids are "generated by the storage engine"
    ([generated_id]).  The statement is
    [INSERT INTO table (cols) VALUES (%s, ...)
     ON CONFLICT ON CONSTRAINT constraint DO NOTHING]: only a conflict on the
    named constraint is skipped, every other violation raises
    [IntegrityError]. *)
Definition insert_on_conflict_do_nothing (table : string) (cols : list string)
  (constraint : string) (items : list value) (db : Database)
  : outcome Database :=
  if negb (length cols =? length items)%nat then Raise OutsideFragment
  else
    match columns table with
    | None => Raise ProgrammingError
    | Some cs =>
        if negb (forallb (has_column cs) cols) then Raise ProgrammingError
        else
          match level_of_table table with
          | None => Raise OutsideFragment
          | Some lv =>
              if negb (String.eqb constraint (table ++ "_name_key"))
              then Raise OutsideFragment
              else
                match proposed_row lv cols items with
                | Raise e => Raise e
                | Return (n, r) =>
                    match validate lv (rows_of lv db) n r with
                    | inl NotNull => Raise IntegrityError
                    | inl Unique => Return db
                    | inr s =>
                        let i := generated_id lv (rows_of lv db) in
                        if id_present (rows_of lv db) i
                        then Raise IntegrityError
                        else if negb (reference_exists lv r db)
                        then Raise IntegrityError
                        else
                          Return (with_rows lv
                                    (rows_of lv db ++
                                     [{| row_id := i; row_name := s;
                                         row_ref := r |}])
                                    db)
                    end
                end
          end
    end.

(** [SELECT id FROM table WHERE name = %s] bound to [(v,)]. *)
Definition select_id_where_name (table : string) (v : value) (db : Database)
  : outcome cursor :=
  match columns table with
  | None => Raise ProgrammingError
  | Some cs =>
      if negb (has_column cs "id" && has_column cs "name")
      then Raise ProgrammingError
      else
        match level_of_table table, v with
        | Some lv, Null => Return []
        | Some lv, Text s => Return (select_id (rows_of lv db) s)
        | _, _ => Raise OutsideFragment
        end
  end.

Inductive statement : Set :=
| INSERT_INTO_ON_CONFLICT_DO_NOTHING (table : string) (cols : list string)
    (constraint : string) (items : list value)
| SELECT_id_WHERE_name (table : string) (name : value).

(** [curs.execute(sql, params)].  A database error leaves the transaction
    failed. *)
Definition execute (sql : statement) : M Connection cursor :=
  fun conn =>
    if failed conn then (Raise InternalError, conn)
    else
      match sql with
      | INSERT_INTO_ON_CONFLICT_DO_NOTHING table cols constraint items =>
          match insert_on_conflict_do_nothing table cols constraint items
                  (working conn) with
          | Return db =>
              (Return [], {| committed := committed conn; working := db;
                             failed := false |})
          | Raise OutsideFragment => (Raise OutsideFragment, conn)
          | Raise e => (Raise e, abort conn)
          end
      | SELECT_id_WHERE_name table v =>
          match select_id_where_name table v (working conn) with
          | Return rows => (Return rows, conn)
          | Raise OutsideFragment => (Raise OutsideFragment, conn)
          | Raise e => (Raise e, abort conn)
          end
      end.

End Engine.

End Psycopg2.

(** ** class PostgreSQLConnector ([__init__] and [register_sensor]) *)

Module PostgreSQLConnector.

Import Psycopg2.

Record Connector : Type :=
  { _connection : Connection;
    _units : gmap value value;
    _types : gmap value value;
    _sensors : gmap value value }.

Inductive attribute : Set := self_units | self_types | self_sensors.

Definition getattr (a : attribute) (self : Connector) : gmap value value :=
  match a with
  | self_units => _units self
  | self_types => _types self
  | self_sensors => _sensors self
  end.

Definition setitem (a : attribute) (k v : value) : M Connector unit :=
  modify (fun self =>
    match a with
    | self_units =>
        {| _connection := _connection self; _units := <[k := v]> (_units self);
           _types := _types self; _sensors := _sensors self |}
    | self_types =>
        {| _connection := _connection self; _units := _units self;
           _types := <[k := v]> (_types self); _sensors := _sensors self |}
    | self_sensors =>
        {| _connection := _connection self; _units := _units self;
           _types := _types self; _sensors := <[k := v]> (_sensors self) |}
    end).

Definition on_connection {A} (m : M Connection A) : M Connector A :=
  fun self =>
    let '(r, conn) := m (_connection self) in
    (r, {| _connection := conn; _units := _units self;
           _types := _types self; _sensors := _sensors self |}).

(** [__init__(self, dbname, host, user, password)], where [database] is the
    content of the database the connection string designates. *)
Definition __init__ (database : Database) : Connector :=
  {| _connection := connect database;
     _units := ∅; _types := ∅; _sensors := ∅ |}.

Section Methods.

Variable generated_id : level -> list row -> Z.

(** Lines 202-212 of the nested helper. *)
Definition insert_items (items : list value) (table : string)
  (cols : list string) (constraint : string) : M Connector cursor :=
  if ((length items =? 2)%nat && (length cols =? 2)%nat)%bool then
    let* c0 := index cols 0 in
    let* c1 := index cols 1 in
    on_connection
      (execute generated_id
         (INSERT_INTO_ON_CONFLICT_DO_NOTHING table [c0; c1] constraint items))
  else
    let* c0 := index cols 0 in
    on_connection
      (execute generated_id
         (INSERT_INTO_ON_CONFLICT_DO_NOTHING table [c0] constraint items)).

(** Lines 214-215. *)
Definition select_items (items : list value) (table : string)
  : M Connector cursor :=
  let* i0 := index items 0 in
  on_connection (execute generated_id (SELECT_id_WHERE_name table i0)).

(** Lines 213-220. *)
Definition recall_id (items : list value) (table : string)
  (id_dict : attribute) : M Connector value :=
  let* curs := select_items items table in
  let* item_id := subscript (fetchone curs) 0 in
  let* i0 := index items 0 in
  let* d := gets (getattr id_dict) in
  (if bool_decide (d !! i0 = None) then setitem id_dict i0 item_id
   else ret tt) ;;;
  ret item_id.

(** The nested function
    [insert_and_recall_id(items, table, cols, constraint, id_dict)]. *)
Definition insert_and_recall_id (items : list value) (table : string)
  (cols : list string) (constraint : string) (id_dict : attribute)
  : M Connector value :=
  insert_items items table cols constraint ;;;
  recall_id items table id_dict.

Definition resolve_chain (sensor : Sensor)
  : M Connector (value * value * value) :=
  let* units_id :=
    insert_and_recall_id [str_or_None (get_units sensor)]
      "units" ["name"] "units_name_key" self_units in
  let* type_id :=
    insert_and_recall_id [str_or_None (get_type sensor); units_id]
      "type" ["name"; "units"] "type_name_key" self_types in
  let* sensor_id :=
    insert_and_recall_id [str_or_None (get_name sensor); type_id]
      "sensor" ["name"; "type"] "sensor_name_key" self_sensors in
  ret (units_id, type_id, sensor_id).

(** [register_sensor(self, sensor)]. *)
Definition register_sensor (sensor : Sensor) : M Connector unit :=
  resolve_chain sensor ;;;
  on_connection commit ;;;
  ret tt.

End Methods.

End PostgreSQLConnector.

(** ** Concrete runs *)

Module Examples.

Import DatabaseConnector.

Definition tempA : Sensor :=
  {| get_name := Some "tempA"; get_type := Some "temperature";
     get_units := Some "celsius" |}.

Definition provided : Globals := {| sqlite3_bound := true |}.

Definition fresh : Connector :=
  {| _connection := Sqlite3.connect empty_database;
     _units := ∅; _types := ∅; _sensors := ∅ |}.

End Examples.

(** ** Closed form of one resolution step *)

Module Resolution.

Import Sqlite3 DatabaseConnector.

Definition table_name (lv : level) : string :=
  match lv with
  | Units => "units"
  | Type_ => "type"
  | Sensor_ => "sensor"
  end.

Definition column_names (lv : level) : list string :=
  match lv with
  | Units => ["name"]
  | Type_ => ["name"; "units"]
  | Sensor_ => ["name"; "type"]
  end.

Definition cache (lv : level) : attribute :=
  match lv with
  | Units => self_units
  | Type_ => self_types
  | Sensor_ => self_sensors
  end.

(** The [items] tuple [register_sensor] builds for a level. *)
Definition tuple (lv : level) (n : option string) (parent : value)
  : list value :=
  match lv with
  | Units => [str_or_None n]
  | _ => [str_or_None n; parent]
  end.

Definition reference (lv : level) (z : Z) : option Z :=
  match lv with
  | Units => None
  | _ => Some z
  end.

(** The rows of a name table as the connector's connection sees them. *)
Definition rows (lv : level) (self : Connector) : list row :=
  rows_of lv (working (_connection self)).

(** The id of the first row named [s]. *)
Definition first_id (rs : list row) (s : string) : option Z :=
  row_id <$> head (filter (fun r => row_name r = s) rs).

Definition remember (lv : level) (k v : value) (self : Connector) : Connector :=
  if bool_decide (getattr (cache lv) self !! k = None)
  then snd (setitem (cache lv) k v self)
  else self.

Definition append_row (lv : level) (r : row) (self : Connector) : Connector :=
  {| _connection :=
       {| committed := committed (_connection self);
          working := with_rows lv (rows lv self ++ [r])
                       (working (_connection self)) |};
     _units := _units self; _types := _types self;
     _sensors := _sensors self |}.

(** What [insert_and_recall_id] does when called as [register_sensor] calls
    it, with an integer parent id ([level_call_closed_form] below). *)
Definition level_spec (lv : level) (n : option string) (z : Z)
  : M Connector Z :=
  fun self =>
    match n with
    | None => (Raise TypeError, self)
    | Some s =>
        match first_id (rows lv self) s with
        | Some i => (Return i, remember lv (Text s) (Integer i) self)
        | None =>
            match next_rowid (rows lv self) with
            | Return i =>
                (Return i,
                 remember lv (Text s) (Integer i)
                   (append_row lv
                      {| row_id := i; row_name := s;
                         row_ref := reference lv z |} self))
            | Raise e => (Raise e, self)
            end
        end
    end.

Definition level_call (lv : level) (n : option string) (parent : value)
  : M Connector value :=
  insert_and_recall_id (tuple lv n parent) (table_name lv) (column_names lv)
    (cache lv).

Arguments first_id : simpl never.

Definition chain_spec (sensor : Sensor) : M Connector (Z * Z * Z) :=
  let* u := level_spec Units (get_units sensor) 0 in
  let* t := level_spec Type_ (get_type sensor) u in
  let* n := level_spec Sensor_ (get_name sensor) t in
  ret (u, t, n).

Definition lift (r : outcome Z) : outcome value :=
  match r with Return i => Return (Integer i) | Raise e => Raise e end.

Definition lift3 (r : outcome (Z * Z * Z)) : outcome (value * value * value) :=
  match r with
  | Return (u, t, n) => Return (Integer u, Integer t, Integer n)
  | Raise e => Raise e
  end.

Definition committing (self : Connector) : Connector :=
  snd (on_connection commit self).

(** The name [register_sensor] resolves at each level. *)
Definition level_name (lv : level) (sensor : Sensor) : option string :=
  match lv with
  | Units => get_units sensor
  | Type_ => get_type sensor
  | Sensor_ => get_name sensor
  end.

(** *** Sequences of calls on one connector

    A caller may go on using a connector after a call has raised; [perform]
    keeps the state the call left behind. *)
Inductive operation : Set :=
| Register (s : Sensor)
| Store (m : Measurement).

Definition perform (op : operation) (self : Connector) : Connector :=
  match op with
  | Register s => snd (register_sensor s self)
  | Store m => snd (store_measurement m self)
  end.

Definition run (ops : list operation) (self : Connector) : Connector :=
  fold_left (fun c op => perform op c) ops self.

(** The connector as [__init__] leaves it, over a given connection. *)
Definition new_connector (conn : Connection) : Connector :=
  {| _connection := conn; _units := ∅; _types := ∅; _sensors := ∅ |}.

(** Every cached entry maps a text name to the id of the first row of that
    name in the table of its level. *)
Definition coherent_at (rs : list row) (d : gmap value value) : Prop :=
  forall k v, d !! k = Some v ->
    exists s i, k = Text s /\ v = Integer i /\ first_id rs s = Some i.

Definition coherent (self : Connector) : Prop :=
  forall lv, coherent_at (rows lv self) (getattr (cache lv) self).

(** [db'] has every row of [db], unchanged and in the same place, and
    possibly more rows after them. *)
Definition extends (db db' : Database) : Prop :=
  units db `prefix_of` units db' /\
  type db `prefix_of` type db' /\
  sensor db `prefix_of` sensor db' /\
  measurement db `prefix_of` measurement db'.

(** Nothing committed is missing from the connection's view. *)
Definition consistent (conn : Connection) : Prop :=
  extends (committed conn) (working conn).

Definition id_at (lv : level) (ids : Z * Z * Z) : Z :=
  match lv with
  | Units => fst (fst ids)
  | Type_ => snd (fst ids)
  | Sensor_ => snd ids
  end.

End Resolution.

(** ** The two connectors side by side *)

Module Backends.

Import Resolution.

Definition pg_cache (lv : level) : PostgreSQLConnector.attribute :=
  match lv with
  | Units => PostgreSQLConnector.self_units
  | Type_ => PostgreSQLConnector.self_types
  | Sensor_ => PostgreSQLConnector.self_sensors
  end.

Definition constraint_name (lv : level) : string :=
  match lv with
  | Units => "units_name_key"
  | Type_ => "type_name_key"
  | Sensor_ => "sensor_name_key"
  end.

(** The PostgreSQL connector holding the same rows and caches, outside a
    failed transaction. *)
Definition as_postgres (self : DatabaseConnector.Connector)
  : PostgreSQLConnector.Connector :=
  {| PostgreSQLConnector._connection :=
       {| Psycopg2.committed :=
            Sqlite3.committed (DatabaseConnector._connection self);
          Psycopg2.working :=
            Sqlite3.working (DatabaseConnector._connection self);
          Psycopg2.failed := false |};
     PostgreSQLConnector._units := DatabaseConnector._units self;
     PostgreSQLConnector._types := DatabaseConnector._types self;
     PostgreSQLConnector._sensors := DatabaseConnector._sensors self |}.

(** The id generator of SQLite's rowid rule, wherever that rule gives an
    id. *)
Definition rowid_generator (lv : level) (rs : list row) : Z :=
  match Sqlite3.next_rowid rs with
  | Return i => i
  | Raise _ => 0
  end.

(** The PostgreSQL helper called as its [register_sensor] calls it. *)
Definition pg_level_call (gen : level -> list row -> Z) (lv : level)
  (n : option string) (parent : value)
  : M PostgreSQLConnector.Connector value :=
  PostgreSQLConnector.insert_and_recall_id gen (tuple lv n parent)
    (table_name lv) (column_names lv) (constraint_name lv) (pg_cache lv).

(** *** [resolveLevel] and [resolveSensor], in the words of the spec

    Sections 4.1 and 4.2 of the spec: a conflict-tolerant insert of the key
    with its parent id (insert-if-absent, no error, no duplicate row), then
    the id of the row of that key, written into the cache of the level
    unless the key has an entry there.  The id of a row that is created is
    "engine-assigned, opaque to callers" (glossary): it is the argument
    [new]. *)
Definition resolveLevel (lv : level) (key : string) (parentId new : Z)
  (self : DatabaseConnector.Connector) : Z * DatabaseConnector.Connector :=
  match first_id (rows lv self) key with
  | Some i => (i, remember lv (Text key) (Integer i) self)
  | None =>
      (new,
       remember lv (Text key) (Integer new)
         (append_row lv {| row_id := new; row_name := key;
                           row_ref := reference lv parentId |} self))
  end.

(** [resolveSensor(name, typeName, unitsName)]: units, then type, then
    sensor, each level with the id resolved at the level before. *)
Definition resolveSensor (new : level -> Z) (name typeName unitsName : string)
  (self : DatabaseConnector.Connector)
  : (Z * Z * Z) * DatabaseConnector.Connector :=
  let r1 := resolveLevel Units unitsName 0 (new Units) self in
  let r2 := resolveLevel Type_ typeName (fst r1) (new Type_) (snd r1) in
  let r3 := resolveLevel Sensor_ name (fst r2) (new Sensor_) (snd r2) in
  ((fst r1, fst r2, fst r3), snd r3).

(** The id an engine that assigns ids by [gen] gives a new row of each
    table of [self]. *)
Definition generated (gen : level -> list row -> Z)
  (self : DatabaseConnector.Connector) (lv : level) : Z :=
  gen lv (rows lv self).

(** The rows of a name table as a [PostgreSQLConnector]'s connection sees
    them. *)
Definition pg_rows (lv : level) (self : PostgreSQLConnector.Connector)
  : list row :=
  rows_of lv (Psycopg2.working (PostgreSQLConnector._connection self)).

(** The name a description with the three names present has at a level. *)
Definition name_at (lv : level) (n t u : string) : string :=
  match lv with Units => u | Type_ => t | Sensor_ => n end.

End Backends.

(** ** Further vocabulary for the operations of [DatabaseConnector] *)

Module Operations.

Import Sqlite3 DatabaseConnector Resolution.

(** The state a returning [store_measurement] leaves: one row appended to
    the measurement table, holding the value [v] that the column keeps,
    everything committed. *)
Definition stored (t : string) (i : Z) (v : float) (self : Connector)
  : Connector :=
  let db := with_measurement
              (measurement (working (_connection self)) ++
               [{| m_timestamp := t; m_sensor := i; m_value := v |}])%list
              (working (_connection self)) in
  {| _connection := {| committed := db; working := db |};
     _units := _units self; _types := _types self;
     _sensors := _sensors self |}.

(** The foreign keys of the schema, which SQLite does not enforce on this
    connection: a type row's units, a sensor row's type (NOT NULL) and a
    measurement row's sensor each name a row of the parent table. *)
Definition referential (db : Database) : Prop :=
  (forall r z, r ∈ type db -> row_ref r = Some z ->
     id_present (units db) z = true) /\
  (forall r, r ∈ sensor db ->
     exists z, row_ref r = Some z /\ id_present (type db) z = true) /\
  (forall m, m ∈ measurement db -> id_present (sensor db) (m_sensor m) = true).

(** The keys of the schema: names and ids are unique in each name table,
    (timestamp, sensor) pairs in the measurement table. *)
Definition unique_keys (db : Database) : Prop :=
  (forall lv, NoDup (map row_name (rows_of lv db)) /\
              NoDup (map row_id (rows_of lv db))) /\
  NoDup (map (fun m => (m_timestamp m, m_sensor m)) (measurement db)).

End Operations.

(** ** [PostgreSQLConnector]: connection string and [store_measurement] *)

Module PostgreSQLStore.

Import Psycopg2 PostgreSQLConnector.

(** The connection string built by [__init__] (line 167):
    ["postgresql://{}:{}@{}/{}".format(user, password, host, dbname)] on
    four [str] arguments. *)
Definition dsn (dbname host user password : string) : string :=
  "postgresql://" ++ user ++ ":" ++ password ++ "@" ++ host ++ "/" ++ dbname.

(** [d[k]]: a missing key raises [KeyError]. *)
Definition getitem (a : attribute) (k : value) : M Connector value :=
  fun self =>
    match getattr a self !! k with
    | Some v => (Return v, self)
    | None => (Raise KeyError, self)
    end.

Section Engine.

(** The value a [REAL] column of the PostgreSQL schema keeps of a Python
    [float]. *)
Variable stored_real : float -> float.

(** Modelled from the spec: the measurement table of the PostgreSQL schema,
    which is created outside the repository.  Section 6 of the spec gives it
    the columns [timestamp TEXT NOT NULL], [sensor] (NOT NULL, a foreign key
    to [sensor.id], which PostgreSQL enforces) and [value REAL NOT NULL] with
    the primary key (timestamp, sensor).  The statement is the plain
    [INSERT INTO measurement (timestamp, sensor, value) VALUES (%s, %s, %s)]
    of lines 185-186: every violation raises [IntegrityError]. *)
Definition insert_measurement (timestamp sensor_id : value)
  (data : option float) (db : Database) : outcome Database :=
  match timestamp, sensor_id with
  | Integer _, _ | _, Text _ => Raise OutsideFragment
  | Text t, Integer i =>
      match data with
      | None => Raise IntegrityError
      | Some f =>
          if existsb (Sqlite3.same_key t i) (measurement db)
          then Raise IntegrityError
          else if negb (id_present (sensor db) i) then Raise IntegrityError
          else Return (with_measurement
                         (measurement db ++
                          [{| m_timestamp := t; m_sensor := i;
                              m_value := stored_real f |}])
                         db)
      end
  | _, _ => Raise IntegrityError
  end.

(** [curs.execute] of that statement: as for the other statements, nothing
    runs in a failed transaction and a database error fails the
    transaction. *)
Definition execute_insert_measurement (timestamp sensor_id : value)
  (data : option float) : M Connection cursor :=
  fun conn =>
    if failed conn then (Raise InternalError, conn)
    else
      match insert_measurement timestamp sensor_id data (working conn) with
      | Return db =>
          (Return [], {| committed := committed conn; working := db;
                         failed := false |})
      | Raise OutsideFragment => (Raise OutsideFragment, conn)
      | Raise e => (Raise e, abort conn)
      end.

(** [store_measurement(self, meas)] of [PostgreSQLConnector]. *)
Definition store_measurement (meas : Measurement) : M Connector unit :=
  let* name_id := getitem self_sensors (str_or_None (get_id meas)) in
  on_connection
    (execute_insert_measurement
       (str_or_None (get_timestamp meas)) name_id (get_data meas)) ;;;
  on_connection commit ;;;
  ret tt.

End Engine.

End PostgreSQLStore.

Module PostgreSQLRuns.

Import Resolution PostgreSQLConnector PostgreSQLStore.

Section Runs.

Variable generated_id : level -> list row -> Z.
Variable stored_real : float -> float.

(** Sequences of calls on one [PostgreSQLConnector], each call leaving the
    state it left whether it returned or raised. *)
Definition perform (op : operation) (self : Connector) : Connector :=
  match op with
  | Register s => snd (register_sensor generated_id s self)
  | Store m => snd (store_measurement stored_real m self)
  end.

Definition run (ops : list operation) (self : Connector) : Connector :=
  fold_left (fun c op => perform op c) ops self.

End Runs.

End PostgreSQLRuns.

(** * Properties *)

Section ListFacts.

Import Resolution.

Lemma name_taken_filter (rs : list row) (s : string) :
  name_taken rs s = false <-> filter (fun r => row_name r = s) rs = [].
Proof.
  unfold name_taken. induction rs as [|r rs IH]; [done|].
  rewrite filter_cons. change (existsb ?f (r :: rs)) with (f r || existsb f rs).
  destruct (decide (row_name r = s)) as [E|E].
  - apply String.eqb_eq in E. rewrite E. split; discriminate.
  - apply String.eqb_neq in E. rewrite E. exact IH.
Qed.

Lemma first_id_None (rs : list row) (s : string) :
  first_id rs s = None <-> name_taken rs s = false.
Proof.
  rewrite name_taken_filter. unfold first_id.
  destruct (filter _ rs); cbn; split; congruence.
Qed.

Lemma first_id_Some_taken (rs : list row) (s : string) (i : Z) :
  first_id rs s = Some i -> name_taken rs s = true.
Proof.
  intros H. destruct (name_taken rs s) eqn:E; [done|].
  apply first_id_None in E. congruence.
Qed.

Lemma fetchone_select_id (rs : list row) (s : string) :
  Sqlite3.fetchone (select_id rs s) = (fun i => [Integer i]) <$> first_id rs s.
Proof.
  unfold Sqlite3.fetchone, select_id, first_id.
  destruct (filter _ rs); reflexivity.
Qed.

Lemma first_id_app (rs new : list row) (s : string) :
  first_id (rs ++ new) s =
  match first_id rs s with
  | Some i => Some i
  | None => first_id new s
  end.
Proof.
  unfold first_id. rewrite filter_app.
  destruct (filter _ rs); reflexivity.
Qed.

Lemma first_id_singleton (i : Z) (s : string) (r : option Z) :
  first_id [{| row_id := i; row_name := s; row_ref := r |}] s = Some i.
Proof.
  unfold first_id. rewrite filter_cons.
  destruct (decide (_ = s)) as [_|E]; [reflexivity | by destruct E].
Qed.

End ListFacts.

Section ClosedForms.

Import Sqlite3 DatabaseConnector Resolution.

Lemma rows_of_with_rows lv rs db : rows_of lv (with_rows lv rs db) = rs.
Proof. by destruct lv. Qed.

Lemma insert_or_ignore_text lv s z db :
  insert_or_ignore (table_name lv) (column_names lv)
    (tuple lv (Some s) (Integer z)) db =
  if name_taken (rows_of lv db) s then Return db
  else match next_rowid (rows_of lv db) with
       | Return i =>
           Return (with_rows lv
                     (rows_of lv db ++
                      [{| row_id := i; row_name := s;
                          row_ref := reference lv z |}]) db)
       | Raise e => Raise e
       end.
Proof.
  destruct lv; cbn; unfold validate; cbn;
    destruct (name_taken _ s); reflexivity.
Qed.

Lemma insert_or_ignore_null lv p db :
  insert_or_ignore (table_name lv) (column_names lv) (tuple lv None (Integer p)) db
  = Return db.
Proof. destruct lv; reflexivity. Qed.

Lemma select_text lv s db :
  select_id_where_name (table_name lv) (Text s) db =
  Return (select_id (rows_of lv db) s).
Proof. destruct lv; reflexivity. Qed.

Lemma select_null lv db :
  select_id_where_name (table_name lv) Null db = Return [].
Proof. destruct lv; reflexivity. Qed.

Lemma insert_items_level lv n p :
  insert_items (tuple lv n p) (table_name lv) (column_names lv) =
  on_connection
    (execute (INSERT_OR_IGNORE_INTO (table_name lv) (column_names lv)
                (tuple lv n p))).
Proof. destruct lv; reflexivity. Qed.

Lemma select_items_level lv n p :
  select_items (tuple lv n p) (table_name lv) =
  on_connection (execute (SELECT_id_WHERE_name (table_name lv) (str_or_None n))).
Proof. destruct lv; reflexivity. Qed.

Lemma index_tuple lv n p (S : Type) :
  @index S _ (tuple lv n p) 0 = ret (str_or_None n).
Proof. destruct lv; reflexivity. Qed.

Lemma level_call_closed_form lv n z self :
  level_call lv n (Integer z) self =
  (lift (fst (level_spec lv n z self)), snd (level_spec lv n z self)).
Proof.
  unfold level_call, insert_and_recall_id, recall_id.
  rewrite insert_items_level, select_items_level, index_tuple.
  destruct self as [[cm wk] du dt ds].
  unfold bind, on_connection, execute, writing, level_spec, rows.
  destruct n as [s|]; cbn [str_or_None _connection working committed].
  - rewrite insert_or_ignore_text.
    destruct (first_id (rows_of lv wk) s) as [i|] eqn:E.
    + rewrite (first_id_Some_taken _ _ _ E).
      cbn [_connection working]. rewrite select_text.
      rewrite fetchone_select_id, E. cbn. unfold remember.
      destruct lv; cbn; case_bool_decide; reflexivity.
    + pose proof E as E'. apply first_id_None in E'. rewrite E'.
      destruct (next_rowid (rows_of lv wk)) as [i|e]; [|reflexivity].
      cbn [_connection working]. rewrite select_text, fetchone_select_id.
      rewrite rows_of_with_rows.
      rewrite first_id_app, E, first_id_singleton. cbn.
      unfold remember, append_row, rows.
      destruct lv; cbn; case_bool_decide; reflexivity.
  - rewrite insert_or_ignore_null. cbn [_connection working].
    rewrite select_null. reflexivity.
Qed.

Lemma level_spec_cases lv n z self r self' :
  level_spec lv n z self = (r, self') ->
  (n = None /\ r = Raise TypeError /\ self' = self)
  \/ (exists s i, n = Some s /\ first_id (rows lv self) s = Some i /\
        r = Return i /\ self' = remember lv (Text s) (Integer i) self)
  \/ (exists s i, n = Some s /\ first_id (rows lv self) s = None /\
        next_rowid (rows lv self) = Return i /\ r = Return i /\
        self' = remember lv (Text s) (Integer i)
                  (append_row lv {| row_id := i; row_name := s;
                                    row_ref := reference lv z |} self))
  \/ (exists s e, n = Some s /\ first_id (rows lv self) s = None /\
        next_rowid (rows lv self) = Raise e /\ r = Raise e /\ self' = self).
Proof.
  unfold level_spec. intros H.
  destruct n as [s|]; [|left; by simplify_eq].
  right. destruct (first_id (rows lv self) s) as [i|] eqn:E.
  - left. exists s, i. by simplify_eq.
  - right. destruct (next_rowid (rows lv self)) as [i|e] eqn:E2.
    + left. exists s, i. by simplify_eq.
    + right. exists s, e. by simplify_eq.
Qed.

(** Components of the connector state after [remember] and [append_row]. *)
Lemma connection_remember lv k v self :
  _connection (remember lv k v self) = _connection self.
Proof. unfold remember. case_bool_decide; [|done]. by destruct lv. Qed.

Lemma rows_remember lv lv' k v self :
  rows lv' (remember lv k v self) = rows lv' self.
Proof. unfold rows. by rewrite connection_remember. Qed.

Lemma getattr_remember_other lv lv' k v self :
  lv' <> lv ->
  getattr (cache lv') (remember lv k v self) = getattr (cache lv') self.
Proof.
  intros N. unfold remember. case_bool_decide; [|done].
  by destruct lv, lv'.
Qed.

Lemma getattr_remember lv k v self :
  getattr (cache lv) (remember lv k v self) =
  match getattr (cache lv) self !! k with
  | None => <[k := v]> (getattr (cache lv) self)
  | Some _ => getattr (cache lv) self
  end.
Proof.
  unfold remember. case_bool_decide as E.
  - rewrite E. by destruct lv.
  - by destruct (getattr (cache lv) self !! k).
Qed.

Lemma getattr_append_row lv a r self :
  getattr a (append_row lv r self) = getattr a self.
Proof. by destruct a. Qed.

Lemma rows_append_row lv r self :
  rows lv (append_row lv r self) = (rows lv self ++ [r])%list.
Proof. unfold rows, append_row. cbn. by rewrite rows_of_with_rows. Qed.

Lemma rows_append_row_other lv lv' r self :
  lv' <> lv -> rows lv' (append_row lv r self) = rows lv' self.
Proof. intros N. by destruct lv, lv'. Qed.

Lemma committed_append_row lv r self :
  committed (_connection (append_row lv r self)) = committed (_connection self).
Proof. done. Qed.

Lemma measurement_append_row lv r self :
  measurement (working (_connection (append_row lv r self))) =
  measurement (working (_connection self)).
Proof. by destruct lv. Qed.

Lemma remember_known lv k v self :
  getattr (cache lv) self !! k <> None -> remember lv k v self = self.
Proof. intros N. unfold remember. by case_bool_decide. Qed.

(** What a step leaves alone. *)
Lemma level_spec_frame lv n z self r self' :
  level_spec lv n z self = (r, self') ->
  committed (_connection self') = committed (_connection self) /\
  measurement (working (_connection self')) =
    measurement (working (_connection self)) /\
  forall lv', lv' <> lv ->
    rows lv' self' = rows lv' self /\
    getattr (cache lv') self' = getattr (cache lv') self.
Proof.
  intros H. apply level_spec_cases in H.
  destruct H as [(-> & -> & ->)|[(s & i & -> & E & -> & ->)|
    [(s & i & -> & E & E2 & -> & ->)|(s & e & -> & E & E2 & -> & ->)]]];
  rewrite ?connection_remember, ?committed_append_row, ?measurement_append_row;
  (split; [done|split; [done|]]); intros lv' N;
  rewrite ?rows_remember, ?getattr_remember_other, ?getattr_append_row,
    ?rows_append_row_other by done; done.
Qed.

(** A step repeated on a state with the same table and cache does nothing
    more, and has the same outcome. *)
Lemma level_spec_stable lv n z z' self r self' X :
  level_spec lv n z self = (r, self') ->
  rows lv X = rows lv self' ->
  getattr (cache lv) X = getattr (cache lv) self' ->
  level_spec lv n z' X = (r, X).
Proof.
  intros H HR HC. apply level_spec_cases in H.
  destruct H as [(-> & -> & ->)|[(s & i & -> & E & -> & ->)|
    [(s & i & -> & E & E2 & -> & ->)|(s & e & -> & E & E2 & -> & ->)]]];
  unfold level_spec.
  - done.
  - rewrite rows_remember in HR. rewrite HR, E.
    rewrite remember_known; [done|].
    rewrite HC, getattr_remember.
    destruct (getattr (cache lv) self !! Text s) eqn:L;
      [by rewrite L | by rewrite lookup_insert_eq].
  - rewrite rows_remember, rows_append_row in HR.
    rewrite HR, first_id_app, E, first_id_singleton.
    rewrite remember_known; [done|].
    rewrite HC, getattr_remember, getattr_append_row.
    destruct (getattr (cache lv) self !! Text s) eqn:L;
      [by rewrite L | by rewrite lookup_insert_eq].
  - by rewrite HR, E, E2.
Qed.

Lemma resolve_chain_closed_form s self :
  resolve_chain s self = (lift3 (fst (chain_spec s self)), snd (chain_spec s self)).
Proof.
  unfold resolve_chain, chain_spec, bind.
  change (insert_and_recall_id [str_or_None (get_units s)] "units" ["name"]
            self_units)
    with (level_call Units (get_units s) (Integer 0)).
  rewrite level_call_closed_form.
  destruct (level_spec Units (get_units s) 0 self) as [[u|e] c1]; [|done].
  cbn [fst snd lift].
  change (insert_and_recall_id [str_or_None (get_type s); Integer u] "type"
            ["name"; "units"] self_types)
    with (level_call Type_ (get_type s) (Integer u)).
  rewrite level_call_closed_form.
  destruct (level_spec Type_ (get_type s) u c1) as [[t|e] c2]; [|done].
  cbn [fst snd lift].
  change (insert_and_recall_id [str_or_None (get_name s); Integer t] "sensor"
            ["name"; "type"] self_sensors)
    with (level_call Sensor_ (get_name s) (Integer t)).
  rewrite level_call_closed_form.
  by destruct (level_spec Sensor_ (get_name s) t c2) as [[n|e] c3].
Qed.

Lemma register_sensor_closed_form s self :
  register_sensor s self =
  match chain_spec s self with
  | (Return _, c) => (Return tt, committing c)
  | (Raise e, c) => (Raise e, c)
  end.
Proof.
  unfold register_sensor, bind. rewrite resolve_chain_closed_form.
  destruct (chain_spec s self) as [[[[u t] n]|e] c]; cbn; [|done].
  unfold committing. by destruct (on_connection commit c) as [[[]|] c'].
Qed.

Lemma rows_committing lv self : rows lv (committing self) = rows lv self.
Proof. done. Qed.

Lemma getattr_committing a self : getattr a (committing self) = getattr a self.
Proof. by destruct a. Qed.

Lemma committing_committing self : committing (committing self) = committing self.
Proof. done. Qed.

(** The three steps of a chain, taken apart. *)
Lemma chain_spec_cases s self r self' :
  chain_spec s self = (r, self') ->
  (exists e, r = Raise e /\ level_spec Units (get_units s) 0 self = (Raise e, self'))
  \/ (exists u c1, level_spec Units (get_units s) 0 self = (Return u, c1) /\
      ((exists e, r = Raise e /\ level_spec Type_ (get_type s) u c1 = (Raise e, self'))
       \/ (exists t c2, level_spec Type_ (get_type s) u c1 = (Return t, c2) /\
           ((exists e, r = Raise e /\
                       level_spec Sensor_ (get_name s) t c2 = (Raise e, self'))
            \/ (exists n, r = Return (u, t, n) /\
                       level_spec Sensor_ (get_name s) t c2 = (Return n, self')))))).
Proof.
  unfold chain_spec, bind, ret. intros H.
  destruct (level_spec Units (get_units s) 0 self) as [[u|e] c1];
    [right|left; exists e; by simplify_eq].
  exists u, c1. split; [done|].
  destruct (level_spec Type_ (get_type s) u c1) as [[t|e] c2];
    [right|left; exists e; by simplify_eq].
  exists t, c2. split; [done|].
  destruct (level_spec Sensor_ (get_name s) t c2) as [[n|e] c3];
    [right; exists n|left; exists e]; by simplify_eq.
Qed.

Lemma chain_spec_stable s self r self' X :
  chain_spec s self = (r, self') ->
  (forall lv, rows lv X = rows lv self' /\
              getattr (cache lv) X = getattr (cache lv) self') ->
  chain_spec s X = (r, X).
Proof.
  intros H HX. apply chain_spec_cases in H.
  unfold chain_spec, bind, ret.
  destruct H as [(e & -> & H1)|(u & c1 & H1 & H)].
  { by rewrite (level_spec_stable _ _ _ _ _ _ _ X H1) by apply HX. }
  destruct H as [(e & -> & H2)|(t & c2 & H2 & H)].
  { pose proof (level_spec_frame _ _ _ _ _ _ H2) as (_ & _ & F2).
    destruct (F2 Units ltac:(done)) as [F2r F2c].
    rewrite (level_spec_stable _ _ _ _ _ _ _ X H1)
      by (rewrite <-?F2r, <-?F2c; apply HX).
    by rewrite (level_spec_stable _ _ _ _ _ _ _ X H2) by apply HX. }
  assert (exists r3, level_spec Sensor_ (get_name s) t c2 = (r3, self') /\
            r = match r3 with Return n => Return (u, t, n) | Raise e => Raise e end)
    as (r3 & H3 & ->).
  { destruct H as [(e & -> & H3)|(n & -> & H3)]; eauto. }
  pose proof (level_spec_frame _ _ _ _ _ _ H2) as (_ & _ & F2).
  pose proof (level_spec_frame _ _ _ _ _ _ H3) as (_ & _ & F3).
  destruct (F2 Units ltac:(done)) as [F2r F2c].
  destruct (F3 Units ltac:(done)) as [F3r F3c].
  destruct (F3 Type_ ltac:(done)) as [F3r' F3c'].
  rewrite (level_spec_stable _ _ _ _ _ _ _ X H1)
    by (rewrite <-?F2r, <-?F2c, <-?F3r, <-?F3c; apply HX).
  rewrite (level_spec_stable _ _ _ _ _ _ _ X H2)
    by (rewrite <-?F3r', <-?F3c'; apply HX).
  rewrite (level_spec_stable _ _ _ _ _ _ _ X H3) by apply HX.
  by destruct r3.
Qed.

(** C1: [register_sensor] is idempotent.  For every sensor description and
    every connector state, a second call with the same description has the
    same outcome as the first and leaves the state the first call left: the
    same rows in every table (no row is added at any level) and the same
    caches; and the three resolutions yield the same ids both times. *)
Theorem register_sensor_idempotent (s : Sensor) (self : Connector) :
  register_sensor s (snd (register_sensor s self)) = register_sensor s self /\
  fst (resolve_chain s (snd (register_sensor s self))) =
  fst (resolve_chain s self).
Proof.
  rewrite (register_sensor_closed_form s self), !resolve_chain_closed_form.
  destruct (chain_spec s self) as [[ids|e] c] eqn:H; cbn [fst snd];
    rewrite register_sensor_closed_form.
  - rewrite (chain_spec_stable _ _ _ _ (committing c) H); [done|].
    intros lv. by rewrite rows_committing, getattr_committing.
  - by rewrite (chain_spec_stable _ _ _ _ c H).
Qed.

End ClosedForms.

Section ChainOrder.

Import Sqlite3 DatabaseConnector Resolution.

Lemma level_spec_new lv s z self i :
  name_taken (rows lv self) s = false ->
  next_rowid (rows lv self) = Return i ->
  level_spec lv (Some s) z self =
  (Return i,
   remember lv (Text s) (Integer i)
     (append_row lv {| row_id := i; row_name := s; row_ref := reference lv z |}
        self)).
Proof.
  intros T N. unfold level_spec. apply first_id_None in T. by rewrite T, N.
Qed.

Lemma working_new lv k v r self :
  working (_connection (remember lv k v (append_row lv r self))) =
  with_rows lv (rows_of lv (working (_connection self)) ++ [r])%list
    (working (_connection self)).
Proof. by rewrite connection_remember. Qed.

(** C2: chain ordering.  When the units name, the type name and the sensor
    name are all absent from their tables, [register_sensor] runs three
    resolutions in the order units, type, sensor: the first appends exactly
    one units row, the second, started in the state the first left, exactly
    one type row whose [units] column is the id of that units row, the third,
    started in the state the second left, exactly one sensor row whose [type]
    column is the id of that type row; the call returns and the committed
    database is the initial one with these three rows appended and nothing
    else changed. *)
Theorem register_sensor_chain_order (s : Sensor) (self : Connector)
  (u t n : string) (uid tid sid : Z) :
  get_units s = Some u -> get_type s = Some t -> get_name s = Some n ->
  name_taken (units (working (_connection self))) u = false ->
  name_taken (type (working (_connection self))) t = false ->
  name_taken (sensor (working (_connection self))) n = false ->
  next_rowid (units (working (_connection self))) = Return uid ->
  next_rowid (type (working (_connection self))) = Return tid ->
  next_rowid (sensor (working (_connection self))) = Return sid ->
  let db := working (_connection self) in
  let units_row := {| row_id := uid; row_name := u; row_ref := None |} in
  let type_row := {| row_id := tid; row_name := t; row_ref := Some uid |} in
  let sensor_row := {| row_id := sid; row_name := n; row_ref := Some tid |} in
  exists c1 c2 c3,
    insert_and_recall_id [Text u] "units" ["name"] self_units self
      = (Return (Integer uid), c1) /\
    working (_connection c1) = with_rows Units (units db ++ [units_row])%list db /\
    insert_and_recall_id [Text t; Integer uid] "type" ["name"; "units"]
      self_types c1 = (Return (Integer tid), c2) /\
    working (_connection c2) =
      with_rows Type_ (type db ++ [type_row])%list (working (_connection c1)) /\
    insert_and_recall_id [Text n; Integer tid] "sensor" ["name"; "type"]
      self_sensors c2 = (Return (Integer sid), c3) /\
    working (_connection c3) =
      with_rows Sensor_ (sensor db ++ [sensor_row])%list
        (working (_connection c2)) /\
    register_sensor s self = (Return tt, committing c3) /\
    working (_connection (committing c3)) =
      {| units := (units db ++ [units_row])%list;
         type := (type db ++ [type_row])%list;
         sensor := (sensor db ++ [sensor_row])%list;
         measurement := measurement db |} /\
    committed (_connection (committing c3)) =
      working (_connection (committing c3)).
Proof.
  intros Eu Et En Tu Tt Tn Nu Nt Nn db units_row type_row sensor_row.
  pose proof (level_spec_new Units u 0 self uid Tu Nu) as H1.
  cbn [reference] in H1.
  set (c1 := remember Units (Text u) (Integer uid)
               (append_row Units units_row self)) in *.
  assert (W1 : working (_connection c1) =
               with_rows Units (units db ++ [units_row])%list db)
    by apply working_new.
  assert (H2 : level_spec Type_ (Some t) uid c1 =
               (Return tid, remember Type_ (Text t) (Integer tid)
                              (append_row Type_ type_row c1))).
  { apply level_spec_new; unfold rows; rewrite W1; done. }
  set (c2 := remember Type_ (Text t) (Integer tid)
               (append_row Type_ type_row c1)) in *.
  assert (W2 : working (_connection c2) =
               with_rows Type_ (type db ++ [type_row])%list
                 (working (_connection c1))).
  { unfold c2. rewrite working_new. by rewrite W1. }
  assert (H3 : level_spec Sensor_ (Some n) tid c2 =
               (Return sid, remember Sensor_ (Text n) (Integer sid)
                              (append_row Sensor_ sensor_row c2))).
  { apply level_spec_new; unfold rows; rewrite W2, W1; done. }
  set (c3 := remember Sensor_ (Text n) (Integer sid)
               (append_row Sensor_ sensor_row c2)) in *.
  assert (W3 : working (_connection c3) =
               with_rows Sensor_ (sensor db ++ [sensor_row])%list
                 (working (_connection c2))).
  { unfold c3. rewrite working_new. by rewrite W2, W1. }
  exists c1, c2, c3.
  split; [|split; [exact W1|]].
  { change (level_call Units (Some u) (Integer 0) self = (Return (Integer uid), c1)).
    by rewrite level_call_closed_form, H1. }
  split; [|split; [exact W2|]].
  { change (level_call Type_ (Some t) (Integer uid) c1 = (Return (Integer tid), c2)).
    by rewrite level_call_closed_form, H2. }
  split; [|split; [exact W3|]].
  { change (level_call Sensor_ (Some n) (Integer tid) c2 = (Return (Integer sid), c3)).
    by rewrite level_call_closed_form, H3. }
  split; [|split].
  - rewrite register_sensor_closed_form. unfold chain_spec, bind.
    subst c3 c2 c1 units_row type_row sensor_row.
    rewrite Eu, Et, En, H1. cbv beta iota. rewrite H2. cbv beta iota.
    by rewrite H3.
  - change (working (_connection (committing c3)))
      with (working (_connection c3)).
    by rewrite W3, W2, W1.
  - done.
Qed.

Lemma register_sensor_chain_order_witness :
  exists c1 c2 c3,
    insert_and_recall_id [Text "celsius"] "units" ["name"] self_units
      Examples.fresh = (Return (Integer 1), c1) /\
    insert_and_recall_id [Text "temperature"; Integer 1] "type"
      ["name"; "units"] self_types c1 = (Return (Integer 1), c2) /\
    insert_and_recall_id [Text "tempA"; Integer 1] "sensor" ["name"; "type"]
      self_sensors c2 = (Return (Integer 1), c3) /\
    register_sensor Examples.tempA Examples.fresh = (Return tt, committing c3).
Proof.
  destruct (register_sensor_chain_order Examples.tempA Examples.fresh
              "celsius" "temperature" "tempA" 1 1 1)
    as (c1 & c2 & c3 & H1 & _ & H2 & _ & H3 & _ & H4 & _);
    try reflexivity.
  exists c1, c2, c3. repeat split; assumption.
Defined.

End ChainOrder.

Section ExistingName.

Import Sqlite3 DatabaseConnector Resolution.

(** What a returning step establishes. *)
Lemma level_spec_returns lv n z self i self' :
  level_spec lv n z self = (Return i, self') ->
  exists s, n = Some s /\
    first_id (rows lv self') s = Some i /\
    getattr (cache lv) self' !! Text s <> None /\
    (getattr (cache lv) self !! Text s = None ->
     getattr (cache lv) self' !! Text s = Some (Integer i)).
Proof.
  intros H. apply level_spec_cases in H.
  destruct H as [(_ & ? & _)|[(s & j & -> & E & ? & ->)|
    [(s & j & -> & E & E2 & ? & ->)|(s & e & _ & _ & _ & ? & _)]]];
    try discriminate; simplify_eq; exists s; (split; [done|]).
  - rewrite rows_remember, getattr_remember.
    split; [done|].
    destruct (getattr (cache lv) self !! Text s) eqn:L.
    + rewrite L. split; [done|congruence].
    + rewrite lookup_insert_eq. split; [done|done].
  - rewrite rows_remember, rows_append_row, first_id_app, E, first_id_singleton.
    rewrite getattr_remember, getattr_append_row.
    split; [done|].
    destruct (getattr (cache lv) self !! Text s) eqn:L.
    + rewrite L. split; [done|congruence].
    + rewrite lookup_insert_eq. split; [done|done].
Qed.

(** A step on a name that is present leaves the table as it is. *)
Lemma level_spec_present lv s z self i :
  first_id (rows lv self) s = Some i ->
  level_spec lv (Some s) z self = (Return i, remember lv (Text s) (Integer i) self).
Proof. intros E. unfold level_spec. by rewrite E. Qed.

(** A chain either stops before the sensor step or ends with it. *)
Lemma chain_spec_reaches_sensor s self r self' :
  chain_spec s self = (r, self') ->
  ((exists e, r = Raise e) /\ rows Sensor_ self' = rows Sensor_ self) \/
  exists u t c2 r3,
    rows Sensor_ c2 = rows Sensor_ self /\
    level_spec Sensor_ (get_name s) t c2 = (r3, self') /\
    r = match r3 with Return n => Return (u, t, n) | Raise e => Raise e end.
Proof.
  intros H. apply chain_spec_cases in H.
  destruct H as [(e & -> & H1)|(u & c1 & H1 & H)].
  { left. split; [by eexists|].
    apply level_spec_frame in H1 as (_ & _ & F). by apply F. }
  pose proof (level_spec_frame _ _ _ _ _ _ H1) as (_ & _ & F1).
  destruct (F1 Sensor_ ltac:(done)) as [F1r _].
  destruct H as [(e & -> & H2)|(t & c2 & H2 & H)].
  { left. split; [by eexists|].
    apply level_spec_frame in H2 as (_ & _ & F).
    destruct (F Sensor_ ltac:(done)) as [-> _]. done. }
  pose proof (level_spec_frame _ _ _ _ _ _ H2) as (_ & _ & F2).
  destruct (F2 Sensor_ ltac:(done)) as [F2r _].
  right. exists u, t, c2.
  destruct H as [(e & -> & H3)|(n & -> & H3)];
    [exists (Raise e)|exists (Return n)]; (split; [congruence|done]).
Qed.

(** C8: re-registration under an existing sensor name.  When the sensor
    table already holds a row named [n] with id [i], [register_sensor] with
    name [n] and any type leaves the sensor table exactly as it was (the row
    keeps its [type] column) and, when the resolutions return, the sensor id
    resolved is [i]. *)
Theorem register_sensor_existing_name (s : Sensor) (self : Connector)
  (n : string) (i : Z) :
  get_name s = Some n ->
  first_id (sensor (working (_connection self))) n = Some i ->
  sensor (working (_connection (snd (register_sensor s self)))) =
    sensor (working (_connection self)) /\
  forall units_id type_id sensor_id,
    fst (resolve_chain s self) = Return (units_id, type_id, sensor_id) ->
    sensor_id = Integer i.
Proof.
  intros En E.
  rewrite register_sensor_closed_form, resolve_chain_closed_form.
  destruct (chain_spec s self) as [r c] eqn:H.
  apply chain_spec_reaches_sensor in H.
  assert (rows Sensor_ c = rows Sensor_ self /\
          forall u t k, r = Return (u, t, k) -> k = i) as [HR HI].
  { destruct H as [[[e ->] HR]|(u & t & c2 & r3 & HR & H3 & ->)].
    - split; [done|]. discriminate.
    - rewrite En in H3. rewrite (level_spec_present _ _ _ _ i) in H3
        by (by rewrite HR).
      simplify_eq. rewrite rows_remember. split; [done|].
      intros ??? [= _ _ <-]. done. }
  split.
  - destruct r; exact HR.
  - intros u t k Hr. destruct r as [[[u' t'] k']|e]; [|done].
    cbn in Hr. simplify_eq. f_equal. by eapply HI.
Qed.

End ExistingName.

Section NullUnits.

Import Sqlite3 DatabaseConnector Resolution.

Lemma register_sensor_existing_name_witness :
  let self := snd (register_sensor Examples.tempA Examples.fresh) in
  let again := {| get_name := Some "tempA"; get_type := Some "pressure";
                  get_units := Some "pascal" |} in
  sensor (working (_connection (snd (register_sensor again self)))) =
    [{| row_id := 1; row_name := "tempA"; row_ref := Some 1 |}] /\
  fst (resolve_chain again self) = Return (Integer 2, Integer 2, Integer 1).
Proof.
  intros self again.
  destruct (register_sensor_existing_name again self "tempA" 1) as [H1 H2];
    [reflexivity | reflexivity |].
  split; [exact H1 | reflexivity].
Defined.

(** A registration without units stops at the units level. *)
Lemma chain_spec_without_units s self :
  get_units s = None -> chain_spec s self = (Raise TypeError, self).
Proof. intros E. unfold chain_spec, bind, level_spec. by rewrite E. Qed.

Lemma register_sensor_without_units s self :
  get_units s = None -> register_sensor s self = (Raise TypeError, self).
Proof.
  intros E. by rewrite register_sensor_closed_form, chain_spec_without_units.
Qed.

(** The rows of the type table a chain adds. *)
Lemma chain_spec_type_rows s self r self' :
  chain_spec s self = (r, self') ->
  rows Type_ self' = rows Type_ self \/
  exists u uid t tid,
    get_units s = Some u /\ get_type s = Some t /\
    first_id (rows Units self') u = Some uid /\
    rows Type_ self' =
      (rows Type_ self ++
       [{| row_id := tid; row_name := t; row_ref := Some uid |}])%list.
Proof.
  intros H. apply chain_spec_cases in H.
  destruct H as [(e & -> & H1)|(uid & c1 & H1 & H)].
  { left. apply level_spec_frame in H1 as (_ & _ & F). by apply F. }
  pose proof (level_spec_frame _ _ _ _ _ _ H1) as (_ & _ & F1).
  destruct (F1 Type_ ltac:(done)) as [F1r _].
  apply level_spec_returns in H1 as (u & Eu & Hu & _).
  assert (exists r2 c2, level_spec Type_ (get_type s) uid c1 = (r2, c2) /\
            rows Type_ self' = rows Type_ c2 /\
            rows Units self' = rows Units c2) as (r2 & c2 & H2 & HT & HU).
  { destruct H as [(e & -> & H2)|(t & c2 & H2 & H)]; [by eauto|].
    exists (Return t), c2. split; [done|].
    assert (exists r3, level_spec Sensor_ (get_name s) t c2 = (r3, self'))
      as [r3 H3] by (destruct H as [(e & _ & H3)|(n & _ & H3)]; eauto).
    apply level_spec_frame in H3 as (_ & _ & F3).
    split; by apply F3. }
  pose proof (level_spec_frame _ _ _ _ _ _ H2) as (_ & _ & F2).
  destruct (F2 Units ltac:(done)) as [F2r _].
  apply level_spec_cases in H2.
  destruct H2 as [(_ & _ & ->)|[(t & j & Et & E & _ & ->)|
    [(t & j & Et & E & E2 & _ & ->)|(t & e & _ & _ & _ & _ & ->)]]].
  - left. congruence.
  - left. rewrite HT, rows_remember. congruence.
  - right. exists u, uid, t, j. split; [done|]. split; [done|]. split.
    + rewrite HU, F2r. exact Hu.
    + rewrite HT, rows_remember, rows_append_row. by rewrite F1r.
  - left. congruence.
Qed.

Lemma register_sensor_new_type_rows s self (r : row) :
  r ∈ type (working (_connection (snd (register_sensor s self)))) ->
  r ∉ type (working (_connection self)) ->
  exists u uid,
    get_units s = Some u /\ row_ref r = Some uid /\
    first_id (units (working (_connection (snd (register_sensor s self)))))
      u = Some uid.
Proof.
  rewrite register_sensor_closed_form.
  destruct (chain_spec s self) as [r0 c] eqn:H.
  apply chain_spec_type_rows in H.
  assert (r ∈ rows Type_ c -> r ∉ rows Type_ self ->
          exists u uid, get_units s = Some u /\ row_ref r = Some uid /\
                        first_id (rows Units c) u = Some uid) as HH.
  { intros Hin Hnot.
    destruct H as [HR|(u & uid & t & tid & Eu & Et & Hu & HR)].
    - rewrite HR in Hin. contradiction.
    - rewrite HR in Hin.
      apply elem_of_app in Hin as [Hin|Hin]; [contradiction|].
      apply list_elem_of_singleton in Hin as ->. by exists u, uid. }
  destruct r0; exact HH.
Qed.

(** C7 as stated fails: no registration with an absent units reference
    returns or changes the type table, and no registration at all adds a
    type row with a null units reference. *)
Lemma null_units_registration_counterexample :
  ~ exists (s : Sensor) (self : Connector),
      (get_units s = None /\
       (fst (register_sensor s self) = Return tt \/
        type (working (_connection (snd (register_sensor s self)))) <>
        type (working (_connection self)))) \/
      (exists r : row,
         (r ∈ type (working (_connection (snd (register_sensor s self))))) /\
         (r ∉ type (working (_connection self))) /\
         row_ref r = None).
Proof.
  intros (s & self & [[E H]|(r & Hin & Hnot & Hr)]).
  - rewrite (register_sensor_without_units s self E) in H.
    destruct H as [H|H]; [discriminate | by apply H].
  - destruct (register_sensor_new_type_rows s self r Hin Hnot)
      as (u & uid & _ & Hr' & _).
    congruence.
Qed.

(** C7 (amended): a registration whose units name is absent never reaches
    the type level: [register_sensor] raises [TypeError] at the units level
    and changes nothing.  Every type row a registration adds carries a
    non-null units reference, the id of the row of the units name of that
    very registration. *)
Theorem type_rows_always_reference_units (s : Sensor) (self : Connector) :
  (get_units s = None ->
   register_sensor s self = (Raise TypeError, self)) /\
  (forall r : row,
     r ∈ type (working (_connection (snd (register_sensor s self)))) ->
     r ∉ type (working (_connection self)) ->
     exists u uid,
       get_units s = Some u /\ row_ref r = Some uid /\
       first_id (units (working (_connection (snd (register_sensor s self)))))
         u = Some uid).
Proof.
  split.
  - apply register_sensor_without_units.
  - apply register_sensor_new_type_rows.
Qed.

Lemma type_rows_always_reference_units_witness :
  register_sensor {| get_name := Some "tempA"; get_type := Some "temperature";
                     get_units := None |} Examples.fresh
  = (Raise TypeError, Examples.fresh) /\
  exists u uid,
    get_units Examples.tempA = Some u /\
    row_ref {| row_id := 1; row_name := "temperature"; row_ref := Some 1 |}
      = Some uid /\
    first_id
      (units (working (_connection
                (snd (register_sensor Examples.tempA Examples.fresh)))))
      u = Some uid.
Proof.
  split.
  - apply (proj1 (type_rows_always_reference_units
                    {| get_name := Some "tempA";
                       get_type := Some "temperature";
                       get_units := None |} Examples.fresh)).
    reflexivity.
  - apply (proj2 (type_rows_always_reference_units Examples.tempA
                    Examples.fresh)).
    + apply list_elem_of_In. left. reflexivity.
    + intros H. apply list_elem_of_In in H. destruct H.
Defined.

End NullUnits.

Section Measurements.

Import Sqlite3 DatabaseConnector Resolution.

(** A returning [store_measurement], taken apart. *)
Lemma store_measurement_returns m self self' :
  store_measurement m self = (Return tt, self') ->
  exists t i f,
    get_timestamp m = Some t /\ get_data m = Some f /\
    PrimFloat.is_nan f = false /\
    _sensors self !! str_or_None (get_id m) = Some (Integer i) /\
    existsb (same_key t i) (measurement (working (_connection self))) = false /\
    let db := with_measurement
                (measurement (working (_connection self)) ++
                 [{| m_timestamp := t; m_sensor := i;
                     m_value := real_affinity f |}])%list
                (working (_connection self)) in
    self' = {| _connection := {| committed := db; working := db |};
               _units := _units self; _types := _types self;
               _sensors := _sensors self |}.
Proof.
  unfold store_measurement, bind, getitem, on_connection, execute, writing,
    insert_measurement, commit, modify, ret.
  cbn [getattr].
  destruct (_sensors self !! str_or_None (get_id m)) as [v|]; [|discriminate].
  destruct (get_timestamp m) as [t|]; cbn [str_or_None];
    [|destruct v; discriminate].
  destruct v as [|i|]; try discriminate.
  destruct (get_data m) as [f|]; [|discriminate].
  destruct (PrimFloat.is_nan f) eqn:N; [discriminate|].
  destruct (existsb _ _) eqn:K; [discriminate|].
  cbn. intros [= <-]. by exists t, i, f.
Qed.

Lemma existsb_same_key_app t i f ms :
  existsb (same_key t i)
    (ms ++ [{| m_timestamp := t; m_sensor := i; m_value := f |}]) = true.
Proof.
  rewrite existsb_app. apply orb_true_iff. right.
  cbn. unfold same_key. cbn. by rewrite String.eqb_refl, Z.eqb_refl.
Qed.

(** A plain insert on a key that is present raises and changes nothing. *)
Lemma store_measurement_present m self t i :
  get_timestamp m = Some t ->
  _sensors self !! str_or_None (get_id m) = Some (Integer i) ->
  existsb (same_key t i) (measurement (working (_connection self))) = true ->
  store_measurement m self = (Raise IntegrityError, self).
Proof.
  intros Et L K.
  unfold store_measurement, bind, getitem, on_connection, execute, writing,
    insert_measurement.
  cbn [getattr]. rewrite L, Et. cbn [str_or_None].
  destruct self as [conn du dt ds]. cbn in *.
  destruct (get_data m) as [f|]; [|done].
  destruct (PrimFloat.is_nan f); [done|]. by rewrite K.
Qed.

(** C5: duplicate measurements are rejected.  After a [store_measurement]
    that returned, a second one with the same sensor name and timestamp and
    any value raises [IntegrityError] (the storage layer's uniqueness error)
    and leaves the state unchanged; the only row stored under that
    (timestamp, sensor) key, the sensor being the id cached for the name,
    still carries the value the first call stored: the first call's float
    as the REAL column keeps it ([real_affinity]: the float itself, except
    that a negative zero is kept as the positive zero). *)
Theorem duplicate_measurement_rejected (m1 m2 : Measurement)
  (self self' : Connector) :
  get_id m2 = get_id m1 ->
  get_timestamp m2 = get_timestamp m1 ->
  store_measurement m1 self = (Return tt, self') ->
  store_measurement m2 self' = (Raise IntegrityError, self') /\
  exists t i f,
    get_timestamp m1 = Some t /\ get_data m1 = Some f /\
    _sensors self !! str_or_None (get_id m1) = Some (Integer i) /\
    filter (fun r => same_key t i r = true)
      (measurement (working (_connection self'))) =
    [{| m_timestamp := t; m_sensor := i; m_value := real_affinity f |}].
Proof.
  intros Ei Et H.
  apply store_measurement_returns in H
    as (t & i & f & Ht & Hf & _ & L & K & ->).
  split.
  - apply (store_measurement_present _ _ t i); cbn.
    + congruence.
    + by rewrite Ei.
    + apply existsb_same_key_app.
  - exists t, i, f. split; [done|]. split; [done|]. split; [done|]. cbn.
    rewrite filter_app, filter_cons, filter_nil.
    assert (filter (fun r => same_key t i r = true)
              (measurement (working (_connection self))) = []) as ->.
    { clear -K. induction (measurement (working (_connection self)))
        as [|r l IH]; [done|].
      cbn in K. apply orb_false_iff in K as [K1 K2].
      rewrite filter_cons. destruct (decide _) as [E|_]; [congruence|].
      by apply IH. }
    destruct (decide _) as [_|N]; [done|].
    exfalso. apply N. unfold same_key. cbn.
    by rewrite String.eqb_refl, Z.eqb_refl.
Qed.

End Measurements.

Lemma duplicate_measurement_rejected_witness :
  let self := snd (DatabaseConnector.register_sensor Examples.tempA Examples.fresh) in
  let m1 := {| get_id := Some "tempA"; get_timestamp := Some "2017-03-28T10:00:00";
               get_data := Some 21.5%float |} in
  let m2 := {| get_id := Some "tempA"; get_timestamp := Some "2017-03-28T10:00:00";
               get_data := Some 99.9%float |} in
  let self' := snd (DatabaseConnector.store_measurement m1 self) in
  DatabaseConnector.store_measurement m2 self' = (Raise IntegrityError, self') /\
  measurement (Sqlite3.working (DatabaseConnector._connection self')) =
    [{| m_timestamp := "2017-03-28T10:00:00"; m_sensor := 1;
        m_value := 21.5%float |}].
Proof.
  intros self m1 m2 self'.
  split; [|reflexivity].
  apply (duplicate_measurement_rejected m1 m2 self self');
    reflexivity.
Defined.

Section Sqlite.

Import Sqlite3 DatabaseConnector.

Lemma on_connection_getattr {A} (m : M Connection A) a self :
  getattr a (snd (on_connection m self)) = getattr a self.
Proof.
  unfold on_connection. destruct (m (_connection self)). by destruct a.
Qed.

Lemma insert_items_getattr items table cols a self :
  getattr a (snd (insert_items items table cols self)) = getattr a self.
Proof.
  unfold insert_items, bind, index, ret, raise.
  destruct (_ && _); destruct (cols !! 0%nat); try done;
    [destruct (cols !! 1%nat); try done|]; apply on_connection_getattr.
Qed.

Lemma select_items_getattr items table a self :
  getattr a (snd (select_items items table self)) = getattr a self.
Proof.
  unfold select_items, bind, index, ret, raise.
  destruct (items !! 0%nat); [apply on_connection_getattr|done].
Qed.

Lemma sqlite_lookup_without_row items table cols id_dict self curs self1 self2 :
  insert_items items table cols self = (Return curs, self1) ->
  select_items items table self1 = (Return [], self2) ->
  insert_and_recall_id items table cols id_dict self = (Raise TypeError, self2) /\
  getattr id_dict self2 = getattr id_dict self.
Proof.
  intros H1 H2. split.
  - unfold insert_and_recall_id, recall_id, bind. by rewrite H1, H2.
  - pose proof (select_items_getattr items table id_dict self1) as E2.
    pose proof (insert_items_getattr items table cols id_dict self) as E1.
    rewrite H2 in E2. rewrite H1 in E1. cbn in *. congruence.
Qed.

End Sqlite.

Section Postgres.

Import Psycopg2 PostgreSQLConnector.

Variable gen : level -> list row -> Z.

Lemma pg_on_connection_getattr {A} (m : M Connection A) a self :
  getattr a (snd (on_connection m self)) = getattr a self.
Proof.
  unfold on_connection. destruct (m (_connection self)). by destruct a.
Qed.

Lemma pg_insert_items_getattr items table cols cn a self :
  getattr a (snd (insert_items gen items table cols cn self)) = getattr a self.
Proof.
  unfold insert_items, bind, index, ret, raise.
  destruct (_ && _); destruct (cols !! 0%nat); try done;
    [destruct (cols !! 1%nat); try done|]; apply pg_on_connection_getattr.
Qed.

Lemma pg_select_items_getattr items table a self :
  getattr a (snd (select_items gen items table self)) = getattr a self.
Proof.
  unfold select_items, bind, index, ret, raise.
  destruct (items !! 0%nat); [apply pg_on_connection_getattr|done].
Qed.

Lemma pg_recall_without_row items table id_dict self self' :
  select_items gen items table self = (Return [], self') ->
  recall_id gen items table id_dict self = (Raise TypeError, self') /\
  getattr id_dict self' = getattr id_dict self.
Proof.
  intros H. split.
  - unfold recall_id, bind. by rewrite H.
  - pose proof (pg_select_items_getattr items table id_dict self) as E.
    rewrite H in E. exact E.
Qed.

Lemma pg_lookup_without_row items table cols cn id_dict self curs self1 self2 :
  insert_items gen items table cols cn self = (Return curs, self1) ->
  select_items gen items table self1 = (Return [], self2) ->
  insert_and_recall_id gen items table cols cn id_dict self
    = (Raise TypeError, self2).
Proof.
  intros H1 H2. unfold insert_and_recall_id, bind. rewrite H1.
  by apply pg_recall_without_row.
Qed.

End Postgres.

(** C6: post-insert lookup failure.  In both connectors, when the insert of
    [insert_and_recall_id] has returned and the SELECT of the id by name
    yields no row, the helper raises (the [TypeError] of subscripting the
    [None] that [fetchone] returned) right there, once: nothing is retried
    and the cache is left as it was.  For the PostgreSQL helper the same is
    stated for its lookup half on its own as well. *)
Theorem lookup_without_row_fails :
  (forall items table cols id_dict self curs self1 self2,
     DatabaseConnector.insert_items items table cols self = (Return curs, self1) ->
     DatabaseConnector.select_items items table self1 = (Return [], self2) ->
     DatabaseConnector.insert_and_recall_id items table cols id_dict self
       = (Raise TypeError, self2) /\
     DatabaseConnector.getattr id_dict self2 =
       DatabaseConnector.getattr id_dict self) /\
  (forall gen items table cols constraint id_dict self curs self1 self2,
     PostgreSQLConnector.insert_items gen items table cols constraint self
       = (Return curs, self1) ->
     PostgreSQLConnector.select_items gen items table self1 = (Return [], self2) ->
     PostgreSQLConnector.insert_and_recall_id gen items table cols constraint
       id_dict self = (Raise TypeError, self2)) /\
  (forall gen items table id_dict self self',
     PostgreSQLConnector.select_items gen items table self = (Return [], self') ->
     PostgreSQLConnector.recall_id gen items table id_dict self
       = (Raise TypeError, self') /\
     PostgreSQLConnector.getattr id_dict self' =
       PostgreSQLConnector.getattr id_dict self).
Proof.
  split; [|split].
  - apply sqlite_lookup_without_row.
  - apply pg_lookup_without_row.
  - apply pg_recall_without_row.
Qed.

Lemma lookup_without_row_fails_witness :
  DatabaseConnector.insert_and_recall_id [Null] "units" ["name"]
    DatabaseConnector.self_units Examples.fresh
  = (Raise TypeError, Examples.fresh) /\
  PostgreSQLConnector.recall_id (fun _ _ => 1) [Text "celsius"] "units"
    PostgreSQLConnector.self_units (PostgreSQLConnector.__init__ empty_database)
  = (Raise TypeError, PostgreSQLConnector.__init__ empty_database).
Proof.
  split.
  - apply (proj1 lookup_without_row_fails [Null] "units" ["name"]
             DatabaseConnector.self_units Examples.fresh [] Examples.fresh
             Examples.fresh); reflexivity.
  - apply (proj2 (proj2 lookup_without_row_fails) (fun _ _ => 1)
             [Text "celsius"] "units" PostgreSQLConnector.self_units
             (PostgreSQLConnector.__init__ empty_database)
             (PostgreSQLConnector.__init__ empty_database)).
    reflexivity.
Defined.

Ltac use_frames :=
  repeat match goal with
         | F : forall lv', lv' <> ?l -> _ |- _ =>
             try (destruct (F Units ltac:(done)) as [? ?]);
             try (destruct (F Type_ ltac:(done)) as [? ?]);
             try (destruct (F Sensor_ ltac:(done)) as [? ?]);
             clear F
         end.

Section Unregistered.

Import Sqlite3 DatabaseConnector Resolution.

(** Seen from one level, a chain is at most one step of that level, taken
    from a state with the table and cache the chain started with. *)
Lemma chain_spec_level s self r self' lv :
  chain_spec s self = (r, self') ->
  (rows lv self' = rows lv self /\
   getattr (cache lv) self' = getattr (cache lv) self) \/
  exists z ca rl cb,
    level_spec lv (level_name lv s) z ca = (rl, cb) /\
    rows lv ca = rows lv self /\
    getattr (cache lv) ca = getattr (cache lv) self /\
    rows lv self' = rows lv cb /\
    getattr (cache lv) self' = getattr (cache lv) cb.
Proof.
  intros H. apply chain_spec_cases in H.
  destruct H as [(e & -> & H1)|(u & c1 & H1 & H)].
  { pose proof (level_spec_frame _ _ _ _ _ _ H1) as (_ & _ & F1).
    destruct lv; [right; by exists 0, self, (Raise e), self'|left..];
      use_frames; done. }
  pose proof (level_spec_frame _ _ _ _ _ _ H1) as (_ & _ & F1).
  destruct H as [(e & -> & H2)|(t & c2 & H2 & H)].
  { pose proof (level_spec_frame _ _ _ _ _ _ H2) as (_ & _ & F2).
    destruct lv;
      [right; exists 0, self, (Return u), c1
      |right; exists u, c1, (Raise e), self'
      |left]; cbn [level_name]; use_frames; repeat split; first [assumption | congruence]. }
  pose proof (level_spec_frame _ _ _ _ _ _ H2) as (_ & _ & F2).
  assert (exists r3, level_spec Sensor_ (get_name s) t c2 = (r3, self'))
    as [r3 H3] by (destruct H as [(e & _ & H3)|(n & _ & H3)]; eauto).
  pose proof (level_spec_frame _ _ _ _ _ _ H3) as (_ & _ & F3).
  right. destruct lv;
    [exists 0, self, (Return u), c1
    |exists u, c1, (Return t), c2
    |exists t, c2, r3, self']; cbn [level_name]; use_frames; repeat split; first [assumption | congruence].
Qed.

Lemma chain_spec_frame s self r self' :
  chain_spec s self = (r, self') ->
  committed (_connection self') = committed (_connection self) /\
  measurement (working (_connection self')) =
    measurement (working (_connection self)).
Proof.
  intros H. apply chain_spec_cases in H.
  destruct H as [(e & -> & H1)|(u & c1 & H1 & H)].
  { by apply level_spec_frame in H1 as (? & ? & _). }
  apply level_spec_frame in H1 as (A1 & B1 & _).
  destruct H as [(e & -> & H2)|(t & c2 & H2 & H)].
  { apply level_spec_frame in H2 as (? & ? & _). split; congruence. }
  apply level_spec_frame in H2 as (A2 & B2 & _).
  assert (exists r3, level_spec Sensor_ (get_name s) t c2 = (r3, self'))
    as [r3 H3] by (destruct H as [(e & _ & H3)|(n & _ & H3)]; eauto).
  apply level_spec_frame in H3 as (A3 & B3 & _). split; congruence.
Qed.

(** The keys of a cache after a step. *)
Lemma level_spec_keys lv n z self r self' k :
  level_spec lv n z self = (r, self') ->
  getattr (cache lv) self' !! k <> None ->
  getattr (cache lv) self !! k <> None \/ k = str_or_None n.
Proof.
  intros H. apply level_spec_cases in H.
  destruct H as [(-> & -> & ->)|[(s & i & -> & E & -> & ->)|
    [(s & i & -> & E & E2 & -> & ->)|(s & e & -> & E & E2 & -> & ->)]]];
    rewrite ?getattr_remember, ?getattr_append_row; try tauto.
  - destruct (getattr (cache lv) self !! Text s) eqn:L; [tauto|].
    destruct (decide (k = Text s)) as [->|N]; [by right|].
    rewrite lookup_insert_ne by done. tauto.
  - destruct (getattr (cache lv) self !! Text s) eqn:L; [tauto|].
    destruct (decide (k = Text s)) as [->|N]; [by right|].
    rewrite lookup_insert_ne by done. tauto.
Qed.

Lemma store_measurement_state m self :
  (forall a, getattr a (snd (store_measurement m self)) = getattr a self) /\
  (forall lv, rows lv (snd (store_measurement m self)) = rows lv self).
Proof.
  destruct (store_measurement m self) as [[[]|e] self'] eqn:H.
  - apply store_measurement_returns in H
      as (t & i & f & _ & _ & _ & _ & _ & ->).
    split; [by intros []|by intros []].
  - revert H.
    unfold store_measurement, bind, getitem, on_connection, execute, writing,
      insert_measurement, commit, modify, ret.
    cbn [getattr].
    destruct self as [conn du dt ds]; cbn.
    destruct (ds !! str_or_None (get_id m)) as [v|]; [|by intros [= _ <-]].
    destruct (str_or_None (get_timestamp m)), v, (get_data m) as [f|];
      try (by intros [= _ <-]);
      destruct (PrimFloat.is_nan f); try (by intros [= _ <-]);
      destruct (existsb _ _); by intros [= _ <-].
Qed.

Lemma register_sensor_sensor_keys s self k :
  _sensors (snd (register_sensor s self)) !! k <> None ->
  _sensors self !! k <> None \/ k = str_or_None (get_name s).
Proof.
  rewrite register_sensor_closed_form.
  destruct (chain_spec s self) as [r c] eqn:H.
  assert (_sensors c !! k <> None ->
          _sensors self !! k <> None \/ k = str_or_None (get_name s)) as HH.
  { apply (chain_spec_level _ _ _ _ Sensor_) in H.
    destruct H as [[_ HC]|(z & ca & rl & cb & H & _ & HCa & _ & HCb)].
    - cbn in HC. rewrite HC. tauto.
    - cbn in HCa, HCb. rewrite HCb, <-HCa.
      apply (level_spec_keys _ _ _ _ _ _ _ H). }
  destruct r; exact HH.
Qed.

Lemma run_sensor_keys ops self k :
  _sensors (run ops self) !! k <> None ->
  _sensors self !! k <> None \/
  exists s, In (Register s) ops /\ k = str_or_None (get_name s).
Proof.
  revert self. induction ops as [|op ops IH]; intros self; [by left|].
  cbn. intros H. apply IH in H as [H|(s & Hin & ->)].
  - destruct op as [s|m]; cbn in H.
    + apply register_sensor_sensor_keys in H as [H| ->]; [by left|].
      right. exists s. by split; [left|].
    + left. pose proof (proj1 (store_measurement_state m self) self_sensors) as E.
      cbn [getattr] in E. by rewrite E in H.
  - right. exists s. by split; [right|].
Qed.

(** C4: unregistered-sensor guard.  On a connector used, since its
    construction, for any sequence of registrations and stores in which no
    registration carried the name of [m], [store_measurement m] raises
    [KeyError] on the cache lookup and leaves the whole state unchanged: no
    registration happens and no row is written. *)
Theorem store_measurement_unregistered (conn : Connection)
  (ops : list operation) (m : Measurement) :
  (forall s, In (Register s) ops -> get_name s <> get_id m) ->
  store_measurement m (run ops (new_connector conn)) =
    (Raise KeyError, run ops (new_connector conn)).
Proof.
  intros Hnot.
  assert (_sensors (run ops (new_connector conn)) !! str_or_None (get_id m) = None)
    as L.
  { destruct (_sensors (run ops (new_connector conn)) !! str_or_None (get_id m))
      eqn:E; [|done].
    exfalso.
    destruct (run_sensor_keys ops (new_connector conn) (str_or_None (get_id m)))
      as [H|(s & Hin & H)].
    - by rewrite E.
    - by apply H.
    - apply (Hnot s Hin).
      destruct (get_name s), (get_id m); cbn in H; congruence. }
  unfold store_measurement, bind, getitem. cbn [getattr]. by rewrite L.
Qed.

Lemma store_measurement_unregistered_witness :
  let self := run [Register Examples.tempA] Examples.fresh in
  let m := {| get_id := Some "tempB"; get_timestamp := Some "t1";
              get_data := Some 20.0%float |} in
  store_measurement m self = (Raise KeyError, self).
Proof.
  intros self m.
  apply (store_measurement_unregistered (connect empty_database)
           [Register Examples.tempA] m).
  intros s [[= <-]|[]]. discriminate.
Defined.

End Unregistered.

Section Coherence.

Import Sqlite3 DatabaseConnector Resolution.

Lemma coherent_at_insert rs d s i :
  coherent_at rs d -> first_id rs s = Some i ->
  coherent_at rs (<[Text s := Integer i]> d).
Proof.
  intros C E k v L. destruct (decide (k = Text s)) as [->|N].
  - rewrite lookup_insert_eq in L. simplify_eq. by exists s, i.
  - rewrite lookup_insert_ne in L by done. by apply C.
Qed.

Lemma coherent_at_app rs new d :
  coherent_at rs d -> coherent_at (rs ++ new) d.
Proof.
  intros C k v L. destruct (C k v L) as (s & i & -> & -> & E).
  exists s, i. repeat split. by rewrite first_id_app, E.
Qed.

Lemma level_spec_coherent lv n z ca rl cb :
  level_spec lv n z ca = (rl, cb) ->
  coherent_at (rows lv ca) (getattr (cache lv) ca) ->
  coherent_at (rows lv cb) (getattr (cache lv) cb).
Proof.
  intros H C. apply level_spec_cases in H.
  destruct H as [(-> & -> & ->)|[(s & i & -> & E & -> & ->)|
    [(s & i & -> & E & E2 & -> & ->)|(s & e & -> & E & E2 & -> & ->)]]];
    try done.
  - rewrite rows_remember, getattr_remember.
    destruct (getattr (cache lv) ca !! Text s); [done|].
    by apply coherent_at_insert.
  - rewrite rows_remember, rows_append_row, getattr_remember, getattr_append_row.
    apply (coherent_at_app _ [{| row_id := i; row_name := s;
                                 row_ref := reference lv z |}]) in C.
    destruct (getattr (cache lv) ca !! Text s); [done|].
    apply coherent_at_insert; [done|].
    by rewrite first_id_app, E, first_id_singleton.
Qed.

Lemma chain_spec_coherent s self r self' :
  chain_spec s self = (r, self') -> coherent self -> coherent self'.
Proof.
  intros H C lv.
  destruct (chain_spec_level _ _ _ _ lv H)
    as [[-> ->]|(z & ca & rl & cb & Hs & Ra & Ca & -> & ->)]; [apply C|].
  apply (level_spec_coherent _ _ _ _ _ _ Hs). rewrite Ra, Ca. apply C.
Qed.

Lemma perform_coherent op self : coherent self -> coherent (perform op self).
Proof.
  intros C. destruct op as [s|m]; cbn.
  - rewrite register_sensor_closed_form.
    destruct (chain_spec s self) as [r c] eqn:H.
    pose proof (chain_spec_coherent _ _ _ _ H C) as C'.
    destruct r; cbn [snd]; [|exact C'].
    intros lv. rewrite rows_committing, getattr_committing. apply C'.
  - intros lv. destruct (store_measurement_state m self) as [HA HR].
    rewrite HA, HR. apply C.
Qed.

Lemma run_coherent ops self : coherent self -> coherent (run ops self).
Proof.
  revert self. induction ops as [|op ops IH]; intros self C; [done|].
  cbn. apply IH. by apply perform_coherent.
Qed.

Lemma new_connector_coherent conn : coherent (new_connector conn).
Proof. intros lv k v L. by destruct lv. Qed.


(** A chain that returns has found, at each level, the name in the table and
    in the cache. *)
Lemma chain_spec_returns s self ids self' lv :
  chain_spec s self = (Return ids, self') ->
  exists n, level_name lv s = Some n /\
    first_id (rows lv self') n = Some (id_at lv ids) /\
    getattr (cache lv) self' !! Text n <> None.
Proof.
  intros H. apply chain_spec_cases in H.
  destruct H as [(e & ? & _)|(u & c1 & H1 & H)]; [done|].
  destruct H as [(e & ? & _)|(t & c2 & H2 & H)]; [done|].
  destruct H as [(e & ? & _)|(n & ? & H3)]; [done|]. simplify_eq.
  pose proof (level_spec_frame _ _ _ _ _ _ H2) as (_ & _ & F2).
  pose proof (level_spec_frame _ _ _ _ _ _ H3) as (_ & _ & F3).
  apply level_spec_returns in H1 as (s1 & E1 & R1 & K1 & _).
  apply level_spec_returns in H2 as (s2 & E2 & R2 & K2 & _).
  apply level_spec_returns in H3 as (s3 & E3 & R3 & K3 & _).
  destruct lv; cbn [level_name id_at fst snd]; use_frames;
    [exists s1|exists s2|exists s3]; repeat split; congruence.
Qed.

(** C3: cache coherence.  On a connector used, since its construction, for
    any sequence of registrations and stores, every cache entry maps a name
    to the id stored for that name in the table of its level; after a
    resolution of one level that returns, the cache of that level has an
    entry for the name, equal to the id returned and stored; and after a
    [register_sensor] that returns, each of the three caches has an entry for
    the name resolved at its level, equal to the id stored for that name. *)
Theorem cache_coherence (conn : Connection) (ops : list operation) :
  let self := run ops (new_connector conn) in
  coherent self /\
  (forall lv n z v self',
     level_call lv n (Integer z) self = (Return v, self') ->
     exists s i,
       n = Some s /\ v = Integer i /\
       getattr (cache lv) self' !! Text s = Some (Integer i) /\
       first_id (rows lv self') s = Some i) /\
  forall s self',
    register_sensor s self = (Return tt, self') ->
    forall lv, exists n i,
      level_name lv s = Some n /\
      getattr (cache lv) self' !! Text n = Some (Integer i) /\
      first_id (rows lv self') n = Some i.
Proof.
  intros self.
  assert (coherent self) as C
    by apply run_coherent, new_connector_coherent.
  split; [exact C|]. split.
  { intros lv n z v self' H.
    rewrite level_call_closed_form in H.
    destruct (level_spec lv n z self) as [[i|e] c] eqn:Hs; [|done].
    cbn in H. simplify_eq.
    pose proof (level_spec_coherent _ _ _ _ _ _ Hs (C lv)) as C'.
    apply level_spec_returns in Hs as (s & -> & R & K & _).
    destruct (getattr (cache lv) self' !! Text s) as [v|] eqn:L; [|done].
    destruct (C' _ _ L) as (s' & i' & ? & -> & R'). simplify_eq.
    by eexists _, _. }
  intros s self' H lv.
  pose proof (perform_coherent (Register s) self C) as C'.
  cbn in C'. rewrite H in C'. cbn in C'.
  rewrite register_sensor_closed_form in H.
  destruct (chain_spec s self) as [[ids|e] c] eqn:Hc; [|done].
  simplify_eq.
  destruct (chain_spec_returns _ _ _ _ lv Hc) as (n & En & R & K).
  destruct (getattr (cache lv) c !! Text n) as [v|] eqn:L; [|done].
  destruct (C' lv (Text n) v) as (s' & i & ? & -> & R').
  { by rewrite getattr_committing. }
  simplify_eq. exists s', i.
  by rewrite getattr_committing, rows_committing.
Qed.

Lemma cache_coherence_witness :
  exists i,
    _sensors (snd (register_sensor Examples.tempA Examples.fresh))
      !! Text "tempA" = Some (Integer i) /\
    first_id (sensor (working (_connection
                (snd (register_sensor Examples.tempA Examples.fresh)))))
      "tempA" = Some i.
Proof.
  destruct (proj2 (proj2 (cache_coherence (connect empty_database) []))
              Examples.tempA
              (snd (register_sensor Examples.tempA Examples.fresh))
              eq_refl Sensor_) as (n & i & En & L & R).
  injection En as <-. by exists i.
Defined.

End Coherence.

Section AppendOnly.

Import Sqlite3 DatabaseConnector Resolution.

Lemma extends_refl db : extends db db.
Proof. by repeat split. Qed.

Lemma extends_trans db1 db2 db3 :
  extends db1 db2 -> extends db2 db3 -> extends db1 db3.
Proof.
  intros (A1 & B1 & C1 & D1) (A2 & B2 & C2 & D2).
  repeat split; by etrans.
Qed.

Lemma extends_rows db db' :
  extends db db' <->
  (forall lv, rows_of lv db `prefix_of` rows_of lv db') /\
  measurement db `prefix_of` measurement db'.
Proof.
  split.
  - intros (A & B & C & D). split; [by intros []|done].
  - intros [H D]. repeat split; [apply (H Units)|apply (H Type_)|
      apply (H Sensor_)|done].
Qed.

Lemma level_spec_prefix lv n z ca rl cb :
  level_spec lv n z ca = (rl, cb) -> rows lv ca `prefix_of` rows lv cb.
Proof.
  intros H. apply level_spec_cases in H.
  destruct H as [(-> & -> & ->)|[(s & i & -> & E & -> & ->)|
    [(s & i & -> & E & E2 & -> & ->)|(s & e & -> & E & E2 & -> & ->)]]];
    rewrite ?rows_remember, ?rows_append_row; try done.
  by apply prefix_app_r.
Qed.

Lemma chain_spec_extends s self r self' :
  chain_spec s self = (r, self') ->
  extends (working (_connection self)) (working (_connection self')).
Proof.
  intros H. apply extends_rows. split.
  - intros lv. change (rows lv self `prefix_of` rows lv self').
    destruct (chain_spec_level _ _ _ _ lv H)
      as [[-> _]|(z & ca & rl & cb & Hs & <- & _ & -> & _)]; [done|].
    by eapply level_spec_prefix.
  - apply chain_spec_frame in H as [_ ->]. done.
Qed.

Lemma perform_extends op self :
  extends (working (_connection self))
          (working (_connection (perform op self))) /\
  (committed (_connection (perform op self)) = committed (_connection self) \/
   committed (_connection (perform op self)) =
     working (_connection (perform op self))).
Proof.
  destruct op as [s|m]; cbn [perform].
  - rewrite register_sensor_closed_form.
    destruct (chain_spec s self) as [r c] eqn:H.
    pose proof (chain_spec_extends _ _ _ _ H) as E.
    apply chain_spec_frame in H as [HC _].
    destruct r; cbn [snd]; (split; [exact E|]); [by right|by left].
  - destruct (store_measurement m self) as [[[]|e] self'] eqn:H; cbn [snd].
    + apply store_measurement_returns in H
        as (t & i & f & _ & _ & _ & _ & _ & ->).
      cbn. split; [|by right].
      repeat split; cbn; try done. by apply prefix_app_r.
    + pose proof (store_measurement_state m self) as [_ HR].
      rewrite H in HR. cbn [snd] in HR.
      revert H.
      unfold store_measurement, bind, getitem, on_connection, execute,
        writing, insert_measurement, commit, modify, ret.
      cbn [getattr].
      destruct self as [conn du dt ds]; cbn.
      destruct (ds !! str_or_None (get_id m)) as [v|];
        [|intros [= _ <-]; split; [apply extends_refl|by left]].
      destruct (str_or_None (get_timestamp m)), v, (get_data m) as [f|];
        try (intros [= _ <-]; split; [apply extends_refl|by left]);
        destruct (PrimFloat.is_nan f);
        try (intros [= _ <-]; split; [apply extends_refl|by left]);
        destruct (existsb _ _);
        intros [= _ <-]; split; first [apply extends_refl|by left].
Qed.

Lemma perform_consistent op self :
  consistent (_connection self) ->
  extends (committed (_connection self))
          (committed (_connection (perform op self))) /\
  consistent (_connection (perform op self)).
Proof.
  unfold consistent. intros C.
  destruct (perform_extends op self) as [E [-> | ->]].
  - split; [apply extends_refl|by eapply extends_trans].
  - split; [by eapply extends_trans|apply extends_refl].
Qed.

Lemma run_extends ops self :
  consistent (_connection self) ->
  extends (working (_connection self)) (working (_connection (run ops self))) /\
  extends (committed (_connection self))
          (committed (_connection (run ops self))) /\
  consistent (_connection (run ops self)).
Proof.
  revert self. induction ops as [|op ops IH]; intros self C.
  { split; [apply extends_refl|split; [apply extends_refl|apply C]]. }
  destruct (perform_consistent op self C) as [E1 C1].
  destruct (perform_extends op self) as [E2 _].
  destruct (IH _ C1) as (E3 & E4 & C2).
  change (run (op :: ops) self) with (run ops (perform op self)).
  split; [by eapply extends_trans|split; [by eapply extends_trans|apply C2]].
Qed.

Lemma run_extends_working ops self :
  extends (working (_connection self)) (working (_connection (run ops self))).
Proof.
  revert self. induction ops as [|op ops IH]; intros self;
    [apply extends_refl|].
  change (run (op :: ops) self) with (run ops (perform op self)).
  destruct (perform_extends op self) as [E _].
  by eapply extends_trans.
Qed.

Lemma init_state globals file c :
  __init__ globals file = Return c ->
  c = new_connector (connect empty_database).
Proof.
  unfold __init__, _create_database.
  destruct (sqlite3_bound globals); [|done]. by intros [= <-].
Qed.

(** C9 as stated fails: with [sqlite3] bound in the module namespace,
    constructing a [DatabaseConnector] over a database file that holds a
    units row returns a connector whose units table is empty. *)
Lemma init_discards_rows_counterexample :
  let stored := {| row_id := 1; row_name := "celsius"; row_ref := None |} in
  let file := {| units := [stored]; type := []; sensor := [];
                 measurement := [] |} in
  exists c,
    __init__ Examples.provided file = Return c /\
    stored ∈ units file /\
    units (committed (_connection c)) = [] /\
    ~ extends file (committed (_connection c)).
Proof.
  intros stored file. eexists. split; [reflexivity|].
  split; [by left|]. split; [reflexivity|].
  intros ([k Hk] & _). discriminate Hk.
Qed.

(** C9 (amended): [register_sensor] and [store_measurement] never update or
    delete a row: after any sequence of them every table in the connection's
    view is the table before with zero or more rows appended, and so is every
    table of the committed database (which the view extends to begin with).
    Constructing a [DatabaseConnector], when it returns, leaves the four
    tables of the database file empty. *)
Theorem rows_only_appended (ops : list operation) (self : Connector) :
  extends (working (_connection self))
          (working (_connection (run ops self))) /\
  (consistent (_connection self) ->
   extends (committed (_connection self))
           (committed (_connection (run ops self)))) /\
  (forall globals file c,
     __init__ globals file = Return c ->
     _connection c = connect empty_database).
Proof.
  split; [apply run_extends_working|split].
  - intros C. by destruct (run_extends ops self C) as (_ & E2 & _).
  - intros globals file c H. by rewrite (init_state _ _ _ H).
Qed.

Lemma rows_only_appended_witness :
  let m := {| get_id := Some "tempA"; get_timestamp := Some "t1";
              get_data := Some 20.0%float |} in
  extends empty_database
    (committed (_connection
       (run [Register Examples.tempA; Store m] Examples.fresh))) /\
  _connection (new_connector (connect empty_database)) =
    connect empty_database.
Proof.
  intros m. split.
  - apply (proj1 (proj2 (rows_only_appended
                           [Register Examples.tempA; Store m]
                           Examples.fresh))).
    apply extends_refl.
  - apply (proj2 (proj2 (rows_only_appended [] Examples.fresh))
             Examples.provided empty_database).
    reflexivity.
Defined.

End AppendOnly.

Import Resolution Backends.

Section BackendAgreement.

Variable gen : level -> list row -> Z.

Lemma largest_id_bound rs r : r ∈ rs -> row_id r <= largest_id rs.
Proof.
  unfold largest_id. induction 1 as [r rs|r r' rs _ IH]; cbn; lia.
Qed.

Lemma next_rowid_absent rs i :
  Sqlite3.next_rowid rs = Return i -> id_present rs i = false.
Proof.
  unfold Sqlite3.next_rowid. destruct rs as [|r0 rs]; [done|].
  destruct (_ <? _)%Z; [|done]. intros [= <-].
  destruct (id_present (r0 :: rs) _) eqn:E; [|done]. exfalso.
  apply existsb_exists in E as (r & Hin & Hr).
  apply Z.eqb_eq in Hr. apply list_elem_of_In, largest_id_bound in Hin. lia.
Qed.

Lemma first_id_present rs s i : first_id rs s = Some i -> id_present rs i = true.
Proof.
  unfold first_id, id_present. intros H.
  destruct (filter _ rs) as [|r l] eqn:F; [done|]. cbn in H. simplify_eq.
  assert (r ∈ filter (fun r => row_name r = s) rs) as Hin by (rewrite F; left).
  apply list_elem_of_filter in Hin as [_ Hin].
  apply existsb_exists. exists r. split; [by apply list_elem_of_In|].
  apply Z.eqb_refl.
Qed.

Lemma pg_insert_text lv s z db :
  Psycopg2.insert_on_conflict_do_nothing gen (table_name lv) (column_names lv)
    (constraint_name lv) (tuple lv (Some s) (Integer z)) db =
  if name_taken (rows_of lv db) s then Return db
  else if id_present (rows_of lv db) (gen lv (rows_of lv db))
       then Raise IntegrityError
  else if negb (Psycopg2.reference_exists lv (reference lv z) db)
       then Raise IntegrityError
  else Return (with_rows lv
                 (rows_of lv db ++
                  [{| row_id := gen lv (rows_of lv db); row_name := s;
                      row_ref := reference lv z |}])%list db).
Proof.
  destruct lv; cbn; unfold validate; cbn;
    destruct (name_taken _ s); reflexivity.
Qed.

Lemma pg_insert_null lv z db :
  Psycopg2.insert_on_conflict_do_nothing gen (table_name lv) (column_names lv)
    (constraint_name lv) (tuple lv None (Integer z)) db = Raise IntegrityError.
Proof. destruct lv; reflexivity. Qed.

Lemma pg_select_text lv s db :
  Psycopg2.select_id_where_name (table_name lv) (Text s) db =
  Return (select_id (rows_of lv db) s).
Proof. destruct lv; reflexivity. Qed.

Lemma pg_insert_items_level lv n p :
  PostgreSQLConnector.insert_items gen (tuple lv n p) (table_name lv) (column_names lv)
    (constraint_name lv) =
  PostgreSQLConnector.on_connection
    (Psycopg2.execute gen
       (Psycopg2.INSERT_INTO_ON_CONFLICT_DO_NOTHING (table_name lv)
          (column_names lv) (constraint_name lv) (tuple lv n p))).
Proof. destruct lv; reflexivity. Qed.

Lemma pg_select_items_level lv n p :
  PostgreSQLConnector.select_items gen (tuple lv n p) (table_name lv) =
  PostgreSQLConnector.on_connection
    (Psycopg2.execute gen
       (Psycopg2.SELECT_id_WHERE_name (table_name lv) (str_or_None n))).
Proof. destruct lv; reflexivity. Qed.


Lemma as_postgres_remember lv k v self :
  as_postgres (remember lv k v self) =
  if bool_decide (PostgreSQLConnector.getattr (pg_cache lv) (as_postgres self) !! k = None)
  then snd (PostgreSQLConnector.setitem (pg_cache lv) k v (as_postgres self))
  else as_postgres self.
Proof.
  unfold remember.
  assert (PostgreSQLConnector.getattr (pg_cache lv) (as_postgres self) =
          DatabaseConnector.getattr (cache lv) self) as -> by (by destruct lv).
  case_bool_decide; [|done]. by destruct lv.
Qed.

Lemma level_spec_total lv s z self :
  (exists i, Sqlite3.next_rowid (rows lv self) = Return i) ->
  exists i self', level_spec lv (Some s) z self = (Return i, self').
Proof.
  intros [i N]. unfold level_spec.
  destruct (first_id (rows lv self) s); [by eauto|].
  rewrite N. by eauto.
Qed.

Lemma chain_spec_total s self u t n :
  get_units s = Some u -> get_type s = Some t -> get_name s = Some n ->
  (forall lv, exists i, Sqlite3.next_rowid (rows lv self) = Return i) ->
  exists ids self', chain_spec s self = (Return ids, self').
Proof.
  intros Eu Et En N. unfold chain_spec, bind, ret. rewrite Eu, Et, En.
  destruct (level_spec_total Units u 0 self (N Units)) as (i1 & c1 & H1).
  rewrite H1.
  pose proof (level_spec_frame _ _ _ _ _ _ H1) as (_ & _ & F1).
  destruct (level_spec_total Type_ t i1 c1) as (i2 & c2 & H2).
  { destruct (F1 Type_ ltac:(done)) as [-> _]. apply N. }
  rewrite H2.
  pose proof (level_spec_frame _ _ _ _ _ _ H2) as (_ & _ & F2).
  destruct (level_spec_total Sensor_ n i2 c2) as (i3 & c3 & H3).
  { destruct (F2 Sensor_ ltac:(done)) as [-> _].
    destruct (F1 Sensor_ ltac:(done)) as [-> _]. apply N. }
  rewrite H3. by eauto.
Qed.

End BackendAgreement.

(** The outcomes of a resolution on a [PostgreSQLConnector]. *)
Section PostgresLevels.

Import Psycopg2 PostgreSQLConnector.

Variable gen : level -> list row -> Z.

Lemma name_taken_first_id rs s :
  name_taken rs s = true -> exists i, first_id rs s = Some i.
Proof.
  intros H. destruct (first_id rs s) as [i|] eqn:E; [by eauto|].
  apply first_id_None in E. congruence.
Qed.

(** One resolution on a connection that has not failed either returns an
    integer id, the connection still sound, or raises [IntegrityError] and
    fails the connection; without a name it is the latter. *)
Lemma pg_level_call_outcome lv n z self r self' :
  failed (_connection self) = false ->
  pg_level_call gen lv n (Integer z) self = (r, self') ->
  ((exists i, r = Return (Integer i)) /\ n <> None /\
   failed (_connection self') = false) \/
  (r = Raise IntegrityError /\ failed (_connection self') = true).
Proof.
  intros F.
  unfold pg_level_call, insert_and_recall_id, recall_id.
  rewrite pg_insert_items_level, pg_select_items_level, index_tuple.
  destruct self as [[cm wk fl] du dt ds]. cbn in F. subst fl.
  unfold bind, on_connection, execute.
  cbn [_connection failed working committed].
  destruct n as [s|]; cbn [str_or_None].
  - rewrite pg_insert_text.
    destruct (name_taken (rows_of lv wk) s) eqn:T.
    + cbn [_connection working failed].
      rewrite pg_select_text.
      destruct (name_taken_first_id _ _ T) as [i Ei].
      change (fetchone ?c) with (Sqlite3.fetchone c).
      rewrite fetchone_select_id, Ei. cbn.
      intros H. left. split; [exists i|split; [done|]].
      * destruct lv; cbn in H; case_bool_decide;
          unfold setitem, modify, ret in H; cbn in H; by simplify_eq.
      * destruct lv; cbn in H; case_bool_decide;
          unfold setitem, modify, ret in H; cbn in H; by simplify_eq.
    + destruct (id_present _ _); [intros [= <- <-]; by right|].
      destruct (reference_exists _ _ _); cbn [negb];
        [|intros [= <- <-]; by right].
      cbn [_connection working failed].
      rewrite pg_select_text, rows_of_with_rows.
      change (fetchone ?c) with (Sqlite3.fetchone c).
      apply first_id_None in T.
      rewrite fetchone_select_id, first_id_app, T, first_id_singleton. cbn.
      intros H. left. split; [exists (gen lv (rows_of lv wk))|split; [done|]].
      * destruct lv; cbn in H; case_bool_decide;
          unfold setitem, modify, ret in H; cbn in H; by simplify_eq.
      * destruct lv; cbn in H; case_bool_decide;
          unfold setitem, modify, ret in H; cbn in H; by simplify_eq.
  - rewrite pg_insert_null. intros [= <- <-]. by right.
Qed.

Lemma pg_register_sensor_outcome s self :
  failed (_connection self) = false ->
  (fst (register_sensor gen s self) = Return tt /\
   failed (_connection (snd (register_sensor gen s self))) = false /\
   get_units s <> None /\ get_type s <> None /\ get_name s <> None) \/
  (fst (register_sensor gen s self) = Raise IntegrityError /\
   failed (_connection (snd (register_sensor gen s self))) = true).
Proof.
  intros F. unfold register_sensor, resolve_chain, bind.
  change (insert_and_recall_id gen [str_or_None (get_units s)] "units"
            ["name"] "units_name_key" self_units)
    with (pg_level_call gen Units (get_units s) (Integer 0)).
  destruct (pg_level_call gen Units (get_units s) (Integer 0) self)
    as [r1 c1] eqn:H1.
  apply pg_level_call_outcome in H1 as [([u ->] & Nu & F1)|[-> F1]];
    [|by right|done].
  change (insert_and_recall_id gen [str_or_None (get_type s); Integer u]
            "type" ["name"; "units"] "type_name_key" self_types)
    with (pg_level_call gen Type_ (get_type s) (Integer u)).
  destruct (pg_level_call gen Type_ (get_type s) (Integer u) c1)
    as [r2 c2] eqn:H2.
  apply pg_level_call_outcome in H2 as [([t ->] & Nt & F2)|[-> F2]];
    [|by right|done].
  change (insert_and_recall_id gen [str_or_None (get_name s); Integer t]
            "sensor" ["name"; "type"] "sensor_name_key" self_sensors)
    with (pg_level_call gen Sensor_ (get_name s) (Integer t)).
  destruct (pg_level_call gen Sensor_ (get_name s) (Integer t) c2)
    as [r3 c3] eqn:H3.
  apply pg_level_call_outcome in H3 as [([n ->] & Nn & F3)|[-> F3]];
    [|by right|done].
  left. destruct c3 as [[cm wk fl] du dt ds]. cbn in F3. subst fl.
  cbn. done.
Qed.

End PostgresLevels.

(** The helper of each connector against [resolveLevel], the chain of each
    against [resolveSensor]. *)
Section BackendComparison.

Import Sqlite3 DatabaseConnector.

Variable gen : level -> list row -> Z.

Lemma rows_resolveLevel_other lv lv' k z new self :
  lv' <> lv -> rows lv' (snd (resolveLevel lv k z new self)) = rows lv' self.
Proof.
  intros N. unfold resolveLevel.
  destruct (first_id (rows lv self) k); cbn [snd];
    rewrite rows_remember, ?rows_append_row_other by done; done.
Qed.

Lemma rows_resolveLevel lv k z new self :
  rows lv (snd (resolveLevel lv k z new self)) =
  (rows lv self ++
   match first_id (rows lv self) k with
   | Some _ => []
   | None => [{| row_id := new; row_name := k; row_ref := reference lv z |}]
   end)%list.
Proof.
  unfold resolveLevel.
  destruct (first_id (rows lv self) k); cbn [snd];
    rewrite rows_remember, ?rows_append_row, ?app_nil_r; done.
Qed.

Lemma getattr_resolveLevel_other lv lv' k z new self :
  lv' <> lv ->
  getattr (cache lv') (snd (resolveLevel lv k z new self)) =
  getattr (cache lv') self.
Proof.
  intros N. unfold resolveLevel.
  destruct (first_id (rows lv self) k); cbn [snd];
    rewrite getattr_remember_other, ?getattr_append_row by done; done.
Qed.

Lemma getattr_resolveLevel lv k z new self :
  getattr (cache lv) (snd (resolveLevel lv k z new self)) =
  match getattr (cache lv) self !! Text k with
  | None =>
      <[Text k := Integer (fst (resolveLevel lv k z new self))]>
        (getattr (cache lv) self)
  | Some _ => getattr (cache lv) self
  end.
Proof.
  unfold resolveLevel.
  destruct (first_id (rows lv self) k); cbn [fst snd];
    rewrite getattr_remember, ?getattr_append_row; done.
Qed.

Lemma resolveLevel_id_present lv k z new self :
  id_present (rows lv (snd (resolveLevel lv k z new self)))
    (fst (resolveLevel lv k z new self)) = true.
Proof.
  rewrite rows_resolveLevel. unfold resolveLevel.
  destruct (first_id (rows lv self) k) as [i|] eqn:E; cbn [fst].
  - rewrite app_nil_r. by apply first_id_present in E.
  - unfold id_present. rewrite existsb_app. apply orb_true_iff. right.
    cbn. by rewrite Z.eqb_refl.
Qed.

(** The SQLite helper is [resolveLevel] with the id of the rowid rule. *)
Lemma resolveLevel_sqlite lv k z self :
  (first_id (rows lv self) k = None ->
   exists i, next_rowid (rows lv self) = Return i) ->
  level_spec lv (Some k) z self =
  (Return (fst (resolveLevel lv k z (generated rowid_generator self lv) self)),
   snd (resolveLevel lv k z (generated rowid_generator self lv) self)).
Proof.
  intros H. unfold level_spec, resolveLevel, generated, rowid_generator.
  destruct (first_id (rows lv self) k); [done|].
  destruct H as [i ->]; done.
Qed.

(** The PostgreSQL helper is [resolveLevel] with the id its engine
    generates, when that id is not in use and the parent row exists. *)
Lemma resolveLevel_postgres lv k z self :
  (first_id (rows lv self) k = None ->
   id_present (rows lv self) (gen lv (rows lv self)) = false) ->
  Psycopg2.reference_exists lv (reference lv z)
    (working (_connection self)) = true ->
  pg_level_call gen lv (Some k) (Integer z) (as_postgres self) =
  (Return (Integer (fst (resolveLevel lv k z (generated gen self lv) self))),
   as_postgres (snd (resolveLevel lv k z (generated gen self lv) self))).
Proof.
  intros H FK.
  unfold pg_level_call, PostgreSQLConnector.insert_and_recall_id,
    PostgreSQLConnector.recall_id.
  rewrite pg_insert_items_level, pg_select_items_level, index_tuple.
  unfold resolveLevel, generated.
  destruct (first_id (rows lv self) k) as [i|] eqn:E; cbn [fst snd];
    rewrite as_postgres_remember.
  - destruct self as [[cm wk] du dt ds].
    unfold bind, PostgreSQLConnector.on_connection, Psycopg2.execute, rows in *.
    cbn [str_or_None as_postgres PostgreSQLConnector._connection Psycopg2.failed
         Psycopg2.working Psycopg2.committed DatabaseConnector._connection
         Sqlite3.working Sqlite3.committed] in *.
    rewrite pg_insert_text, (first_id_Some_taken _ _ _ E).
    cbn [PostgreSQLConnector._connection Psycopg2.working Psycopg2.failed].
    rewrite pg_select_text.
    change (Psycopg2.fetchone ?c) with (Sqlite3.fetchone c).
    rewrite fetchone_select_id, E. cbn.
    destruct lv; cbn; case_bool_decide; reflexivity.
  - specialize (H eq_refl).
    destruct self as [[cm wk] du dt ds].
    unfold bind, PostgreSQLConnector.on_connection, Psycopg2.execute, rows,
      append_row in *.
    cbn [str_or_None as_postgres PostgreSQLConnector._connection Psycopg2.failed
         Psycopg2.working Psycopg2.committed DatabaseConnector._connection
         Sqlite3.working Sqlite3.committed DatabaseConnector._units
         DatabaseConnector._types DatabaseConnector._sensors] in *.
    pose proof E as E'. apply first_id_None in E'.
    rewrite pg_insert_text, E', H, FK.
    cbn [negb PostgreSQLConnector._connection Psycopg2.working Psycopg2.failed].
    rewrite pg_select_text, rows_of_with_rows.
    change (Psycopg2.fetchone ?c) with (Sqlite3.fetchone c).
    rewrite fetchone_select_id, first_id_app, E, first_id_singleton. cbn.
    destruct lv; cbn; case_bool_decide; reflexivity.
Qed.

Lemma resolveSensor_sqlite s self u t n :
  get_units s = Some u -> get_type s = Some t -> get_name s = Some n ->
  (forall lv k, level_name lv s = Some k -> first_id (rows lv self) k = None ->
     exists i, next_rowid (rows lv self) = Return i) ->
  chain_spec s self =
  (Return (fst (resolveSensor (generated rowid_generator self) n t u self)),
   snd (resolveSensor (generated rowid_generator self) n t u self)).
Proof.
  intros Eu Et En N. unfold chain_spec, resolveSensor, bind, ret.
  rewrite Eu, Et, En.
  rewrite resolveLevel_sqlite by (apply (N Units); done).
  cbv beta iota.
  set (r1 := resolveLevel Units u 0 (generated rowid_generator self Units) self).
  assert (generated rowid_generator self Type_ =
          generated rowid_generator (snd r1) Type_) as G2.
  { unfold generated, r1. by rewrite rows_resolveLevel_other. }
  rewrite G2.
  rewrite resolveLevel_sqlite
    by (unfold r1; rewrite rows_resolveLevel_other by done;
        apply (N Type_); done).
  cbv beta iota.
  set (r2 := resolveLevel Type_ t (fst r1)
               (generated rowid_generator (snd r1) Type_) (snd r1)).
  assert (generated rowid_generator self Sensor_ =
          generated rowid_generator (snd r2) Sensor_) as G3.
  { unfold generated, r2, r1. by rewrite !rows_resolveLevel_other. }
  rewrite G3.
  rewrite resolveLevel_sqlite
    by (unfold r2, r1; rewrite !rows_resolveLevel_other by done;
        apply (N Sensor_); done).
  reflexivity.
Qed.

Lemma resolveSensor_postgres s self u t n :
  get_units s = Some u -> get_type s = Some t -> get_name s = Some n ->
  (forall lv k, level_name lv s = Some k -> first_id (rows lv self) k = None ->
     id_present (rows lv self) (gen lv (rows lv self)) = false) ->
  PostgreSQLConnector.resolve_chain gen s (as_postgres self) =
  (lift3 (Return (fst (resolveSensor (generated gen self) n t u self))),
   as_postgres (snd (resolveSensor (generated gen self) n t u self))).
Proof.
  intros Eu Et En N.
  unfold PostgreSQLConnector.resolve_chain, resolveSensor, bind, ret.
  rewrite Eu, Et, En.
  change (PostgreSQLConnector.insert_and_recall_id gen [str_or_None (Some u)]
            "units" ["name"] "units_name_key" PostgreSQLConnector.self_units)
    with (pg_level_call gen Units (Some u) (Integer 0)).
  rewrite resolveLevel_postgres by (first [apply (N Units); done | done]).
  set (r1 := resolveLevel Units u 0 (generated gen self Units) self).
  cbv beta iota.
  change (PostgreSQLConnector.insert_and_recall_id gen
            [str_or_None (Some t); Integer (fst r1)]
            "type" ["name"; "units"] "type_name_key"
            PostgreSQLConnector.self_types)
    with (pg_level_call gen Type_ (Some t) (Integer (fst r1))).
  assert (generated gen self Type_ = generated gen (snd r1) Type_) as G2.
  { unfold generated, r1. by rewrite rows_resolveLevel_other. }
  rewrite G2.
  rewrite resolveLevel_postgres.
  2:{ unfold r1. rewrite rows_resolveLevel_other by done. apply (N Type_); done. }
  2:{ apply (resolveLevel_id_present Units). }
  set (r2 := resolveLevel Type_ t (fst r1) (generated gen (snd r1) Type_)
               (snd r1)).
  cbv beta iota.
  change (PostgreSQLConnector.insert_and_recall_id gen
            [str_or_None (Some n); Integer (fst r2)]
            "sensor" ["name"; "type"] "sensor_name_key"
            PostgreSQLConnector.self_sensors)
    with (pg_level_call gen Sensor_ (Some n) (Integer (fst r2))).
  assert (generated gen self Sensor_ = generated gen (snd r2) Sensor_) as G3.
  { unfold generated, r2, r1. by rewrite !rows_resolveLevel_other. }
  rewrite G3.
  rewrite resolveLevel_postgres.
  2:{ unfold r2, r1. rewrite !rows_resolveLevel_other by done.
      apply (N Sensor_); done. }
  2:{ apply (resolveLevel_id_present Type_). }
  reflexivity.
Qed.


Lemma names_resolveSensor new n t u self lv :
  map row_name (rows lv (snd (resolveSensor new n t u self))) =
  (map row_name (rows lv self) ++
   match first_id (rows lv self) (name_at lv n t u) with
   | Some _ => []
   | None => [name_at lv n t u]
   end)%list.
Proof.
  unfold resolveSensor. cbn [snd].
  destruct lv; cbn [name_at];
    rewrite ?(rows_resolveLevel_other Sensor_ Units),
      ?(rows_resolveLevel_other Type_ Units),
      ?(rows_resolveLevel_other Sensor_ Type_) by done;
    rewrite rows_resolveLevel, map_app,
      ?(rows_resolveLevel_other Type_ Sensor_),
      ?(rows_resolveLevel_other Units Sensor_),
      ?(rows_resolveLevel_other Units Type_) by done;
    by destruct (first_id _ _).
Qed.

Lemma keys_resolveSensor new n t u self lv :
  dom (getattr (cache lv) (snd (resolveSensor new n t u self))) =
  {[ Text (name_at lv n t u) ]} ∪ dom (getattr (cache lv) self).
Proof.
  assert (forall lv k z i c,
            dom (getattr (cache lv) (snd (resolveLevel lv k z i c))) =
            {[ Text k ]} ∪ dom (getattr (cache lv) c)) as K.
  { intros lv0 k z i c. rewrite getattr_resolveLevel.
    destruct (getattr (cache lv0) c !! Text k) eqn:L.
    - apply elem_of_dom_2 in L. symmetry. apply subseteq_union_1_L.
      by apply singleton_subseteq_l.
    - by rewrite dom_insert_L. }
  unfold resolveSensor. cbn [snd].
  destruct lv; cbn [name_at];
    rewrite ?(getattr_resolveLevel_other Sensor_ Units),
      ?(getattr_resolveLevel_other Type_ Units),
      ?(getattr_resolveLevel_other Sensor_ Type_) by done;
    rewrite K,
      ?(getattr_resolveLevel_other Type_ Sensor_),
      ?(getattr_resolveLevel_other Units Sensor_),
      ?(getattr_resolveLevel_other Units Type_) by done;
    done.
Qed.

Lemma ids_resolveSensor new n t u self lv :
  id_at lv (fst (resolveSensor new n t u self)) =
  match first_id (rows lv self) (name_at lv n t u) with
  | Some i => i
  | None => new lv
  end.
Proof.
  unfold resolveSensor. cbn [fst].
  destruct lv; cbn [id_at name_at fst snd]; unfold resolveLevel at 1;
    rewrite ?(rows_resolveLevel_other Type_ Sensor_),
      ?(rows_resolveLevel_other Units Sensor_),
      ?(rows_resolveLevel_other Units Type_) by done;
    by destruct (first_id _ _).
Qed.

Lemma sqlite_register_without_name s self :
  (forall lv k, level_name lv s = Some k -> first_id (rows lv self) k = None ->
     exists i, next_rowid (rows lv self) = Return i) ->
  get_units s = None \/ get_type s = None \/ get_name s = None ->
  fst (register_sensor s self) = Raise TypeError.
Proof.
  intros N H. rewrite register_sensor_closed_form.
  unfold chain_spec, bind, ret.
  destruct (get_units s) as [u|] eqn:Eu; [|done].
  rewrite resolveLevel_sqlite by (apply (N Units); done).
  cbv beta iota.
  destruct (get_type s) as [t|] eqn:Et; [|done].
  rewrite resolveLevel_sqlite
    by (rewrite rows_resolveLevel_other by done; apply (N Type_); done).
  cbv beta iota.
  destruct (get_name s) as [n|] eqn:En; [|done].
  destruct H as [H1|[H2|H3]]; discriminate.
Qed.

End BackendComparison.

(** C10 as stated fails, in two ways.  On a sensor description without a
    type name, from the same empty database, the SQLite connector raises
    [TypeError] and keeps the units row it has inserted, while the
    PostgreSQL connector raises [IntegrityError] and is left in a failed
    transaction without that row, its units cache still holding the id.
    And on a fully named sensor the resolved ids need not be the same: the
    ids are the engines' own, and from the same rows and caches (the sensor
    tempA registered twice) a client-server engine whose next id is 3, as
    that of a sequence, which a skipped insert advances too, resolves the
    new sensor tempB to 3 where the rowid rule gives 2, so the sensor rows
    and the caches differ. *)
Lemma backends_differ_counterexample :
  let s := {| get_name := Some "tempA"; get_type := None;
              get_units := Some "celsius" |} in
  let a := DatabaseConnector.register_sensor s Examples.fresh in
  let b := PostgreSQLConnector.register_sensor rowid_generator s
             (as_postgres Examples.fresh) in
  let tempB := {| get_name := Some "tempB"; get_type := Some "temperature";
                  get_units := Some "celsius" |} in
  let self := run [Register Examples.tempA; Register Examples.tempA]
                Examples.fresh in
  let a' := DatabaseConnector.register_sensor tempB self in
  let b' := PostgreSQLConnector.register_sensor (fun _ _ => 3) tempB
              (as_postgres self) in
  (fst a = Raise TypeError /\
   fst b = Raise IntegrityError /\
   units (Sqlite3.working (DatabaseConnector._connection (snd a))) =
     [{| row_id := 1; row_name := "celsius"; row_ref := None |}] /\
   units (Psycopg2.working (PostgreSQLConnector._connection (snd b))) = [] /\
   Psycopg2.failed (PostgreSQLConnector._connection (snd b)) = true /\
   PostgreSQLConnector._units (snd b) !! Text "celsius" = Some (Integer 1)) /\
  (fst a' = Return tt /\ fst b' = Return tt /\
   fst (DatabaseConnector.resolve_chain tempB self) =
     Return (Integer 1, Integer 1, Integer 2) /\
   fst (PostgreSQLConnector.resolve_chain (fun _ _ => 3) tempB
          (as_postgres self)) =
     Return (Integer 1, Integer 1, Integer 3) /\
   rows Sensor_ (snd a') =
     [{| row_id := 1; row_name := "tempA"; row_ref := Some 1 |};
      {| row_id := 2; row_name := "tempB"; row_ref := Some 1 |}] /\
   pg_rows Sensor_ (snd b') =
     [{| row_id := 1; row_name := "tempA"; row_ref := Some 1 |};
      {| row_id := 3; row_name := "tempB"; row_ref := Some 1 |}] /\
   DatabaseConnector._sensors (snd a') !! Text "tempB" = Some (Integer 2) /\
   PostgreSQLConnector._sensors (snd b') !! Text "tempB" = Some (Integer 3)).
Proof. repeat split; reflexivity. Qed.

(** C10 (amended): what the two backends agree on.  From the same rows and
    caches, where each engine can assign an id to the rows that have to be
    created:

    - for a sensor description whose three names are present, both
      [register_sensor] return and both are the resolution of the spec
      ([resolveSensor]: insert-if-absent, look up, cache) applied to the
      starting state and committed, each with the ids its own engine
      generates for new rows.  So each table has the same names in both, the
      starting names and the level's name added once if it was not stored;
      the caches have the same keys; at a level whose name was stored both
      resolve the stored id; at a level whose row is created the SQLite
      connector resolves the id of the rowid rule and the PostgreSQL
      connector the id its engine generates;
    - for a sensor description with an absent name both raise, and not the
      same exception: the SQLite connector [TypeError], the PostgreSQL
      connector [IntegrityError], its transaction left failed. *)
Theorem backends_agree_on_named_sensors (gen : level -> list row -> Z)
  (s : Sensor) (self : DatabaseConnector.Connector) :
  (forall lv k, level_name lv s = Some k -> first_id (rows lv self) k = None ->
     exists i, Sqlite3.next_rowid (rows lv self) = Return i) ->
  (forall lv k, level_name lv s = Some k -> first_id (rows lv self) k = None ->
     id_present (rows lv self) (gen lv (rows lv self)) = false) ->
  let a := DatabaseConnector.register_sensor s self in
  let b := PostgreSQLConnector.register_sensor gen s (as_postgres self) in
  (forall u t n,
     get_units s = Some u -> get_type s = Some t -> get_name s = Some n ->
     let x := resolveSensor (generated rowid_generator self) n t u self in
     let y := resolveSensor (generated gen self) n t u self in
     a = (Return tt, committing (snd x)) /\
     b = (Return tt, as_postgres (committing (snd y))) /\
     fst (DatabaseConnector.resolve_chain s self) = lift3 (Return (fst x)) /\
     fst (PostgreSQLConnector.resolve_chain gen s (as_postgres self)) =
       lift3 (Return (fst y)) /\
     forall lv k, level_name lv s = Some k ->
       map row_name (rows lv (snd a)) = map row_name (pg_rows lv (snd b)) /\
       map row_name (rows lv (snd a)) =
         (map row_name (rows lv self) ++
          match first_id (rows lv self) k with
          | Some _ => []
          | None => [k]
          end)%list /\
       dom (DatabaseConnector.getattr (cache lv) (snd a)) =
         dom (PostgreSQLConnector.getattr (pg_cache lv) (snd b)) /\
       match first_id (rows lv self) k with
       | Some i => id_at lv (fst x) = i /\ id_at lv (fst y) = i
       | None =>
           Sqlite3.next_rowid (rows lv self) = Return (id_at lv (fst x)) /\
           id_at lv (fst y) = gen lv (rows lv self)
       end) /\
  (get_units s = None \/ get_type s = None \/ get_name s = None ->
   fst a = Raise TypeError /\
   fst b = Raise IntegrityError /\
   Psycopg2.failed (PostgreSQLConnector._connection (snd b)) = true).
Proof.
  intros N G a b. split.
  - intros u t n Eu Et En x y.
    assert (a = (Return tt, committing (snd x))) as Ha.
    { unfold a. rewrite register_sensor_closed_form.
      by rewrite (resolveSensor_sqlite s self u t n Eu Et En N). }
    assert (b = (Return tt, as_postgres (committing (snd y)))) as Hb.
    { unfold b, PostgreSQLConnector.register_sensor, bind.
      rewrite (resolveSensor_postgres gen s self u t n Eu Et En G).
      cbn [lift3]. by destruct (fst (resolveSensor _ _ _ _ _)) as [[? ?] ?]. }
    split; [exact Ha|]. split; [exact Hb|]. split; [|split].
    + rewrite resolve_chain_closed_form.
      by rewrite (resolveSensor_sqlite s self u t n Eu Et En N).
    + by rewrite (resolveSensor_postgres gen s self u t n Eu Et En G).
    + intros lv k Ek.
      assert (k = name_at lv n t u) as ->
        by (destruct lv; cbn in Ek |- *; congruence).
      rewrite Ha, Hb. cbn [snd].
      assert (pg_rows lv (as_postgres (committing (snd y))) = rows lv (snd y))
        as -> by reflexivity.
      assert (PostgreSQLConnector.getattr (pg_cache lv)
                (as_postgres (committing (snd y))) =
              DatabaseConnector.getattr (cache lv) (snd y))
        as -> by (by destruct lv).
      rewrite rows_committing, getattr_committing.
      unfold x, y.
      rewrite !names_resolveSensor, !keys_resolveSensor, !ids_resolveSensor.
      split; [done|]. split; [done|]. split; [done|].
      destruct (first_id (rows lv self) (name_at lv n t u)) eqn:E; [done|].
      split; [|done].
      destruct (N lv (name_at lv n t u)) as [i Hi]; [by destruct lv|done|].
      unfold generated, rowid_generator. by rewrite Hi.
  - intros H. split; [by apply sqlite_register_without_name|].
    destruct (pg_register_sensor_outcome gen s (as_postgres self) eq_refl)
      as [(_ & _ & Nu & Nt & Nn)|[Hb F]].
    + destruct H as [H|[H|H]]; congruence.
    + by split.
Qed.

Lemma backends_agree_on_named_sensors_witness :
  let tempB := {| get_name := Some "tempB"; get_type := Some "temperature";
                  get_units := Some "celsius" |} in
  let self := snd (DatabaseConnector.register_sensor Examples.tempA
                     Examples.fresh) in
  let gen := fun (_ : level) (_ : list row) => 3 in
  fst (DatabaseConnector.resolve_chain tempB self) =
    Return (Integer 1, Integer 1, Integer 2) /\
  fst (PostgreSQLConnector.resolve_chain gen tempB (as_postgres self)) =
    Return (Integer 1, Integer 1, Integer 3) /\
  map row_name (rows Sensor_ (snd (DatabaseConnector.register_sensor tempB self))) =
  map row_name (pg_rows Sensor_
                  (snd (PostgreSQLConnector.register_sensor gen tempB
                          (as_postgres self)))).
Proof.
  intros tempB self gen.
  assert (forall lv k, level_name lv tempB = Some k ->
            first_id (rows lv self) k = None ->
            exists i, Sqlite3.next_rowid (rows lv self) = Return i) as N.
  { intros lv k _ _. exists 2. by destruct lv. }
  assert (forall lv k, level_name lv tempB = Some k ->
            first_id (rows lv self) k = None ->
            id_present (rows lv self) (gen lv (rows lv self)) = false) as G.
  { intros lv k _ _. by destruct lv. }
  destruct (backends_agree_on_named_sensors gen tempB self N G) as [P _].
  destruct (P "celsius" "temperature" "tempB" eq_refl eq_refl eq_refl)
    as (_ & _ & Ha & Hb & R).
  split; [rewrite Ha; reflexivity|]. split; [rewrite Hb; reflexivity|].
  exact (proj1 (R Sensor_ "tempB" eq_refl)).
Defined.

(** The end-to-end scenario: one registration, one stored measurement and a
    repeated registration leave one row in each table. *)
Example end_to_end_scenario :
  let m := {| get_id := Some "tempA"; get_timestamp := Some "t1";
              get_data := Some 20.0%float |} in
  Sqlite3.committed
    (DatabaseConnector._connection
       (run [Register Examples.tempA; Store m; Register Examples.tempA]
          Examples.fresh)) =
  {| units := [{| row_id := 1; row_name := "celsius"; row_ref := None |}];
     type := [{| row_id := 1; row_name := "temperature"; row_ref := Some 1 |}];
     sensor := [{| row_id := 1; row_name := "tempA"; row_ref := Some 1 |}];
     measurement := [{| m_timestamp := "t1"; m_sensor := 1;
                        m_value := 20.0%float |}] |}.
Proof. reflexivity. Qed.

(** A negative zero is stored as the positive zero (the two are told apart
    by the sign of their inverse). *)
Example negative_zero_is_stored_as_zero :
  let m := {| get_id := Some "tempA"; get_timestamp := Some "t1";
              get_data := Some (-0.0)%float |} in
  map m_value
    (measurement
       (Sqlite3.committed
          (DatabaseConnector._connection
             (run [Register Examples.tempA; Store m] Examples.fresh)))) =
  [0.0%float] /\
  (1 / (-0.0) = neg_infinity)%float /\ (1 / 0.0 = infinity)%float.
Proof. repeat split; reflexivity. Qed.

(** Without the global [sqlite3] the constructor raises before it touches the
    database file. *)
Example init_without_global (file : Database) :
  DatabaseConnector.__init__
    {| DatabaseConnector.sqlite3_bound := false |} file = Raise NameError.
Proof. reflexivity. Qed.

(** * Further properties of the connectors *)

Section StoreMeasurement.

Import Sqlite3 DatabaseConnector Resolution Operations.

Lemma store_measurement_succeeds m self t i f :
  get_timestamp m = Some t -> get_data m = Some f ->
  PrimFloat.is_nan f = false ->
  _sensors self !! str_or_None (get_id m) = Some (Integer i) ->
  existsb (same_key t i) (measurement (working (_connection self))) = false ->
  store_measurement m self = (Return tt, stored t i (real_affinity f) self).
Proof.
  intros Et Ef N L K.
  unfold store_measurement, bind, getitem, on_connection, execute, writing,
    insert_measurement, commit, modify, ret, stored.
  cbn [getattr]. rewrite L, Et, Ef. cbn [str_or_None]. rewrite N, K.
  reflexivity.
Qed.

(** X1: [store_measurement] returns exactly when the sensor name is a key of
    [self._sensors] with an integer id, the timestamp is a string, the value
    is a float other than NaN and no measurement row has that (timestamp,
    id) pair; it then appends one row with that timestamp and id and with
    the float as the REAL column keeps it ([real_affinity]: a negative zero
    is kept as the positive zero, any other float as it is), commits, and
    changes nothing else. *)
Theorem store_measurement_returns_iff (m : Measurement) (self self' : Connector) :
  store_measurement m self = (Return tt, self') <->
  exists t i f,
    get_timestamp m = Some t /\ get_data m = Some f /\
    PrimFloat.is_nan f = false /\
    _sensors self !! str_or_None (get_id m) = Some (Integer i) /\
    existsb (same_key t i) (measurement (working (_connection self))) = false /\
    self' = stored t i (real_affinity f) self.
Proof.
  split.
  - intros H. apply store_measurement_returns in H
      as (t & i & f & ? & ? & ? & ? & ? & ->). by exists t, i, f.
  - intros (t & i & f & Et & Ef & N & L & K & ->).
    by apply store_measurement_succeeds.
Qed.

Lemma store_measurement_returns_iff_witness :
  let self := snd (register_sensor Examples.tempA Examples.fresh) in
  let m := {| get_id := Some "tempA"; get_timestamp := Some "t1";
              get_data := Some (-0.0)%float |} in
  store_measurement m self = (Return tt, stored "t1" 1 0.0%float self).
Proof.
  intros self m.
  apply (proj2 (store_measurement_returns_iff m self
                  (stored "t1" 1 0.0%float self))).
  exists "t1", 1, (-0.0)%float. repeat split; reflexivity.
Defined.

Lemma store_measurement_raises m self e self' :
  store_measurement m self = (Raise e, self') ->
  self' = self /\
  (_sensors self !! str_or_None (get_id m) = None -> e = KeyError) /\
  (e = KeyError -> _sensors self !! str_or_None (get_id m) = None).
Proof.
  unfold store_measurement, bind, getitem, on_connection, execute, writing,
    insert_measurement, commit, modify, ret.
  cbn [getattr].
  destruct self as [conn du dt ds]; cbn.
  destruct (ds !! str_or_None (get_id m)) as [v|];
    [|intros [= <- <-]; by repeat split].
  destruct (str_or_None (get_timestamp m)), v, (get_data m) as [f|];
    try (intros [= <- <-]; repeat split; discriminate);
    destruct (PrimFloat.is_nan f);
    try (intros [= <- <-]; repeat split; discriminate);
    destruct (existsb _ _);
    intros [= <- <-]; repeat split; discriminate.
Qed.

(** X2: [store_measurement] is all or nothing: when it raises, the connector
    state is exactly what it was, and the exception is [KeyError] exactly
    when the sensor name is not a key of [self._sensors]. *)
Theorem store_measurement_all_or_nothing (m : Measurement)
  (self self' : Connector) (e : exception) :
  store_measurement m self = (Raise e, self') ->
  self' = self /\
  (e = KeyError <-> _sensors self !! str_or_None (get_id m) = None).
Proof.
  intros H. apply store_measurement_raises in H as (-> & A & B).
  by repeat split.
Qed.

Lemma store_measurement_all_or_nothing_witness :
  let m := {| get_id := Some "tempA"; get_timestamp := Some "t1";
              get_data := Some 20.0%float |} in
  Examples.fresh = Examples.fresh /\
  (KeyError = KeyError <->
   _sensors Examples.fresh !! str_or_None (get_id m) = None).
Proof.
  intros m.
  apply (store_measurement_all_or_nothing m Examples.fresh Examples.fresh
           KeyError).
  reflexivity.
Defined.

End StoreMeasurement.

Section Discipline.

Import Sqlite3 DatabaseConnector Resolution Operations.

(** X3: commit discipline.  [register_sensor] and [store_measurement] commit
    only as their last step: after a call that returns nothing is pending
    (the committed database is the connection's view), after a call that
    raises the committed database is what it was. *)
Theorem commit_only_on_return (op : operation) (self : Connector) :
  let result :=
    match op with
    | Register s => register_sensor s self
    | Store m => store_measurement m self
    end in
  match fst result with
  | Return _ =>
      committed (_connection (snd result)) = working (_connection (snd result))
  | Raise _ =>
      committed (_connection (snd result)) = committed (_connection self)
  end.
Proof.
  destruct op as [s|m]; cbn zeta.
  - rewrite register_sensor_closed_form.
    destruct (chain_spec s self) as [[ids|e] c] eqn:H; cbn [fst snd]; [done|].
    by apply chain_spec_frame in H as [-> _].
  - destruct (store_measurement m self) as [[[]|e] self'] eqn:H; cbn [fst snd].
    + apply store_measurement_returns in H
        as (t & i & f & _ & _ & _ & _ & _ & ->). done.
    + by apply store_measurement_raises in H as (-> & _).
Qed.

(** Entries of a cache survive a step. *)
Lemma level_spec_keeps_entries lv n z self r self' k v :
  level_spec lv n z self = (r, self') ->
  getattr (cache lv) self !! k = Some v ->
  getattr (cache lv) self' !! k = Some v.
Proof.
  intros H L. apply level_spec_cases in H.
  destruct H as [(-> & -> & ->)|[(s & i & -> & E & -> & ->)|
    [(s & i & -> & E & E2 & -> & ->)|(s & e & -> & E & E2 & -> & ->)]]];
    rewrite ?getattr_remember, ?getattr_append_row; try done.
  - destruct (getattr (cache lv) self !! Text s) eqn:L'; [done|].
    rewrite lookup_insert_ne; [done|congruence].
  - destruct (getattr (cache lv) self !! Text s) eqn:L'; [done|].
    rewrite lookup_insert_ne; [done|congruence].
Qed.

Lemma perform_keeps_entries op self lv k v :
  getattr (cache lv) self !! k = Some v ->
  getattr (cache lv) (perform op self) !! k = Some v.
Proof.
  intros L. destruct op as [s|m]; cbn [perform].
  - rewrite register_sensor_closed_form.
    destruct (chain_spec s self) as [r c] eqn:H.
    assert (getattr (cache lv) c !! k = Some v) as L'.
    { destruct (chain_spec_level _ _ _ _ lv H)
        as [[_ ->]|(z & ca & rl & cb & Hs & _ & Ca & _ & ->)]; [done|].
      apply (level_spec_keeps_entries _ _ _ _ _ _ _ _ Hs). by rewrite Ca. }
    destruct r; cbn [snd]; [by rewrite getattr_committing|done].
  - by rewrite (proj1 (store_measurement_state m self)).
Qed.

(** X4: first write wins.  An entry of any of the three caches is never
    changed or removed by any sequence of registrations and stores. *)
Theorem cache_entries_never_change (ops : list operation) (self : Connector)
  (a : attribute) (k v : value) :
  getattr a self !! k = Some v ->
  getattr a (run ops self) !! k = Some v.
Proof.
  assert (exists lv, a = cache lv) as [lv ->]
    by (destruct a; [exists Units|exists Type_|exists Sensor_]; done).
  revert self. induction ops as [|op ops IH]; intros self L; [done|].
  change (run (op :: ops) self) with (run ops (perform op self)).
  by apply IH, perform_keeps_entries.
Qed.

Lemma cache_entries_never_change_witness :
  let self := snd (register_sensor Examples.tempA Examples.fresh) in
  let again := {| get_name := Some "tempA"; get_type := Some "pressure";
                  get_units := Some "pascal" |} in
  _sensors (run [Register again] self) !! Text "tempA" = Some (Integer 1).
Proof.
  intros self again.
  apply (cache_entries_never_change [Register again] self self_sensors
           (Text "tempA") (Integer 1)).
  reflexivity.
Defined.

(** X5: [register_sensor] never touches the measurement table, whatever its
    outcome; [store_measurement] never touches the units, type and sensor
    tables nor any cache. *)
Theorem operations_frame (self : Connector) :
  (forall s,
     measurement (working (_connection (snd (register_sensor s self)))) =
     measurement (working (_connection self))) /\
  (forall m,
     let self' := snd (store_measurement m self) in
     units (working (_connection self')) = units (working (_connection self)) /\
     type (working (_connection self')) = type (working (_connection self)) /\
     sensor (working (_connection self')) = sensor (working (_connection self)) /\
     _units self' = _units self /\ _types self' = _types self /\
     _sensors self' = _sensors self).
Proof.
  split.
  - intros s. rewrite register_sensor_closed_form.
    destruct (chain_spec s self) as [r c] eqn:H.
    apply chain_spec_frame in H as [_ H]. by destruct r.
  - intros m self'. destruct (store_measurement_state m self) as [A R].
    repeat split;
      [apply (R Units)|apply (R Type_)|apply (R Sensor_)|
       apply (A self_units)|apply (A self_types)|apply (A self_sensors)].
Qed.

(** X6: when a row id can be assigned in each name table, [register_sensor]
    returns if the three names are present and raises [TypeError] if any of
    them is [None]. *)
Theorem register_sensor_outcome (s : Sensor) (self : Connector) :
  (forall lv, exists i, next_rowid (rows lv self) = Return i) ->
  fst (register_sensor s self) =
  if is_some (get_units s) && is_some (get_type s) && is_some (get_name s)
  then Return tt else Raise TypeError.
Proof.
  intros N. rewrite register_sensor_closed_form.
  unfold chain_spec, bind, ret.
  destruct (get_units s) as [u|]; [|done].
  destruct (level_spec_total Units u 0 self (N Units)) as (i1 & c1 & H1).
  rewrite H1.
  pose proof (level_spec_frame _ _ _ _ _ _ H1) as (_ & _ & F1).
  destruct (get_type s) as [t|]; [|done].
  destruct (level_spec_total Type_ t i1 c1) as (i2 & c2 & H2).
  { destruct (F1 Type_ ltac:(done)) as [-> _]. apply N. }
  rewrite H2.
  pose proof (level_spec_frame _ _ _ _ _ _ H2) as (_ & _ & F2).
  destruct (get_name s) as [n|]; [|done].
  destruct (level_spec_total Sensor_ n i2 c2) as (i3 & c3 & H3).
  { destruct (F2 Sensor_ ltac:(done)) as [-> _].
    destruct (F1 Sensor_ ltac:(done)) as [-> _]. apply N. }
  by rewrite H3.
Qed.

Lemma register_sensor_outcome_witness :
  fst (register_sensor {| get_name := None; get_type := Some "temperature";
                          get_units := Some "celsius" |} Examples.fresh)
  = Raise TypeError.
Proof.
  apply (register_sensor_outcome
           {| get_name := None; get_type := Some "temperature";
              get_units := Some "celsius" |} Examples.fresh).
  intros lv. exists 1. by destruct lv.
Defined.

End Discipline.

Section Reuse.

Import Sqlite3 DatabaseConnector Resolution Operations.

(** X7: levels that exist are reused.  Registering a new sensor name under a
    units name and a type name that are already stored adds no units row and
    no type row, and exactly one sensor row, which references the existing
    type row; the ids resolved are the existing ones and the new one. *)
Theorem register_sensor_reuses_levels (s : Sensor) (self : Connector)
  (u t n : string) (uid tid sid : Z) :
  get_units s = Some u -> get_type s = Some t -> get_name s = Some n ->
  first_id (units (working (_connection self))) u = Some uid ->
  first_id (type (working (_connection self))) t = Some tid ->
  name_taken (sensor (working (_connection self))) n = false ->
  next_rowid (sensor (working (_connection self))) = Return sid ->
  fst (register_sensor s self) = Return tt /\
  fst (resolve_chain s self) = Return (Integer uid, Integer tid, Integer sid) /\
  let db' := working (_connection (snd (register_sensor s self))) in
  units db' = units (working (_connection self)) /\
  type db' = type (working (_connection self)) /\
  sensor db' =
    (sensor (working (_connection self)) ++
     [{| row_id := sid; row_name := n; row_ref := Some tid |}])%list.
Proof.
  intros Eu Et En Fu Ft Tn Nn.
  rewrite register_sensor_closed_form, resolve_chain_closed_form.
  unfold chain_spec, bind, ret. rewrite Eu, Et, En.
  rewrite (level_spec_present Units u 0 self uid) by exact Fu.
  cbv beta iota.
  rewrite (level_spec_present Type_ t uid _ tid)
    by (by rewrite rows_remember).
  cbv beta iota.
  rewrite (level_spec_new Sensor_ n tid _ sid)
    by (by rewrite !rows_remember).
  cbn [fst snd lift3].
  split; [done|]. split; [done|].
  change (working (_connection (committing ?c))) with (working (_connection c)).
  rewrite connection_remember.
  cbn [append_row _connection working with_rows units type sensor].
  rewrite !connection_remember. by rewrite !rows_remember.
Qed.

Lemma register_sensor_reuses_levels_witness :
  let self := snd (register_sensor Examples.tempA Examples.fresh) in
  let tempB := {| get_name := Some "tempB"; get_type := Some "temperature";
                  get_units := Some "celsius" |} in
  fst (resolve_chain tempB self) = Return (Integer 1, Integer 1, Integer 2) /\
  units (working (_connection (snd (register_sensor tempB self)))) =
    [{| row_id := 1; row_name := "celsius"; row_ref := None |}].
Proof.
  intros self tempB.
  destruct (register_sensor_reuses_levels tempB self "celsius" "temperature"
              "tempB" 1 1 2) as (_ & H1 & H2 & _); try reflexivity.
  split; [exact H1 | exact H2].
Defined.

End Reuse.

Section Keys.

Import Sqlite3 DatabaseConnector Resolution Operations.

Lemma name_taken_false_not_in rs s :
  name_taken rs s = false -> s ∉ map row_name rs.
Proof.
  unfold name_taken. intros H Hin.
  apply list_elem_of_fmap in Hin as (r & -> & Hin).
  assert (existsb (fun r0 => (row_name r0 =? row_name r)%string) rs = true).
  { apply existsb_exists. exists r. split; [by apply list_elem_of_In|].
    apply String.eqb_refl. }
  congruence.
Qed.

Lemma id_present_false_not_in rs i :
  id_present rs i = false -> i ∉ map row_id rs.
Proof.
  unfold id_present. intros H Hin.
  apply list_elem_of_fmap in Hin as (r & -> & Hin).
  assert (existsb (fun r0 => (row_id r0 =? row_id r)%Z) rs = true).
  { apply existsb_exists. exists r. split; [by apply list_elem_of_In|].
    apply Z.eqb_refl. }
  congruence.
Qed.

Lemma id_present_app rs new i :
  id_present rs i = true -> id_present (rs ++ new) i = true.
Proof. unfold id_present. intros H. rewrite existsb_app, H. done. Qed.

Lemma NoDup_snoc {A} (l : list A) (x : A) :
  NoDup l -> x ∉ l -> NoDup (l ++ [x]).
Proof.
  intros N H. apply NoDup_app. split; [done|]. split.
  - intros y Hy Hx. apply list_elem_of_singleton in Hx as ->. done.
  - apply NoDup_singleton.
Qed.

Lemma level_spec_unique lv n z ca r cb :
  level_spec lv n z ca = (r, cb) ->
  NoDup (map row_name (rows lv ca)) /\ NoDup (map row_id (rows lv ca)) ->
  NoDup (map row_name (rows lv cb)) /\ NoDup (map row_id (rows lv cb)).
Proof.
  intros H [N1 N2]. apply level_spec_cases in H.
  destruct H as [(-> & -> & ->)|[(s & i & -> & E & -> & ->)|
    [(s & i & -> & E & E2 & -> & ->)|(s & e & -> & E & E2 & -> & ->)]]];
    rewrite ?rows_remember, ?rows_append_row; try done.
  rewrite !map_app. cbn [map row_name row_id]. split.
  - apply NoDup_snoc; [done|].
    by apply name_taken_false_not_in, first_id_None.
  - apply NoDup_snoc; [done|].
    by apply id_present_false_not_in, next_rowid_absent.
Qed.

Lemma same_key_false_not_in ms t i :
  existsb (same_key t i) ms = false ->
  (t, i) ∉ map (fun m => (m_timestamp m, m_sensor m)) ms.
Proof.
  intros H Hin. apply list_elem_of_fmap in Hin as (m & E & Hin).
  assert (existsb (same_key t i) ms = true).
  { apply existsb_exists. exists m. split; [by apply list_elem_of_In|].
    unfold same_key. injection E as -> ->.
    by rewrite String.eqb_refl, Z.eqb_refl. }
  congruence.
Qed.

Lemma perform_unique op self :
  unique_keys (working (_connection self)) ->
  unique_keys (working (_connection (perform op self))).
Proof.
  intros [U M]. destruct op as [s|m]; cbn [perform].
  - rewrite register_sensor_closed_form.
    destruct (chain_spec s self) as [r c] eqn:H.
    assert (unique_keys (working (_connection c))) as U'.
    { split.
      - intros lv. change (rows_of lv (working (_connection c)))
          with (rows lv c).
        destruct (chain_spec_level _ _ _ _ lv H)
          as [[-> _]|(z & ca & rl & cb & Hs & Ra & _ & -> & _)]; [apply U|].
        apply (level_spec_unique _ _ _ _ _ _ Hs). rewrite Ra. apply U.
      - apply chain_spec_frame in H as [_ ->]. exact M. }
    by destruct r.
  - destruct (store_measurement m self) as [[[]|e] self'] eqn:H; cbn [snd].
    + apply store_measurement_returns in H
        as (t & i & f & _ & _ & _ & _ & K & ->).
      split; [intros lv; destruct lv;
        [apply (U Units)|apply (U Type_)|apply (U Sensor_)]|]. cbn.
      rewrite map_app. cbn [map m_timestamp m_sensor].
      apply NoDup_snoc; [done|]. by apply same_key_false_not_in.
    + by apply store_measurement_raises in H as (-> & _).
Qed.

(** X8: the keys of the schema are kept by any sequence of registrations and
    stores: names and ids stay unique in each name table and (timestamp,
    sensor) pairs in the measurement table. *)
Theorem unique_keys_kept (ops : list operation) (self : Connector) :
  unique_keys (working (_connection self)) ->
  unique_keys (working (_connection (run ops self))).
Proof.
  revert self. induction ops as [|op ops IH]; intros self U; [done|].
  change (run (op :: ops) self) with (run ops (perform op self)).
  by apply IH, perform_unique.
Qed.

End Keys.

Section ForeignKeys.

Import Sqlite3 DatabaseConnector Resolution Operations.

Lemma unique_keys_kept_witness :
  unique_keys
    (working (_connection
       (run [Register Examples.tempA; Register Examples.tempA]
          Examples.fresh))).
Proof.
  apply (unique_keys_kept [Register Examples.tempA; Register Examples.tempA]
           Examples.fresh).
  split; [intros lv; destruct lv; split; apply NoDup_nil_2|apply NoDup_nil_2].
Defined.

Lemma level_spec_working lv n z ca r cb :
  level_spec lv n z ca = (r, cb) ->
  working (_connection cb) = working (_connection ca) \/
  exists i s,
    working (_connection cb) =
    with_rows lv (rows_of lv (working (_connection ca)) ++
                  [{| row_id := i; row_name := s; row_ref := reference lv z |}])%list
      (working (_connection ca)).
Proof.
  intros H. apply level_spec_cases in H.
  destruct H as [(-> & -> & ->)|[(s & i & -> & E & -> & ->)|
    [(s & i & -> & E & E2 & -> & ->)|(s & e & -> & E & E2 & -> & ->)]]];
    rewrite ?connection_remember; try (by left).
  right. by exists i, s.
Qed.

Lemma level_spec_referential lv n z ca r cb :
  level_spec lv n z ca = (r, cb) ->
  match referenced_level lv with
  | Some p => id_present (rows p ca) z = true
  | None => True
  end ->
  referential (working (_connection ca)) ->
  referential (working (_connection cb)).
Proof.
  intros H P (RT & RS & RM).
  apply level_spec_working in H as [->|(i & s & ->)]; [done|].
  unfold rows in P.
  destruct lv; cbn in *; repeat split; cbn.
  - intros r0 z0 Hin Hz. apply id_present_app. by eapply RT.
  - exact RS.
  - exact RM.
  - intros r0 z0 Hin Hz. apply elem_of_app in Hin as [Hin|Hin].
    + by eapply RT.
    + apply list_elem_of_singleton in Hin as ->. cbn in Hz. by simplify_eq.
  - intros r0 Hin. destruct (RS r0 Hin) as (z0 & Hz & Hp).
    exists z0. split; [done|]. by apply id_present_app.
  - exact RM.
  - exact RT.
  - intros r0 Hin. apply elem_of_app in Hin as [Hin|Hin]; [by apply RS|].
    apply list_elem_of_singleton in Hin as ->. by exists z.
  - intros m Hin. apply id_present_app. by apply RM.
Qed.

Lemma chain_spec_referential s self r self' :
  chain_spec s self = (r, self') ->
  referential (working (_connection self)) ->
  referential (working (_connection self')).
Proof.
  intros H R. apply chain_spec_cases in H.
  destruct H as [(e & -> & H1)|(u & c1 & H1 & H)].
  { by apply (level_spec_referential _ _ _ _ _ _ H1). }
  pose proof (level_spec_referential _ _ _ _ _ _ H1 I R) as R1.
  apply level_spec_returns in H1 as (s1 & _ & P1 & _).
  apply first_id_present in P1.
  destruct H as [(e & -> & H2)|(t & c2 & H2 & H)].
  { by apply (level_spec_referential _ _ _ _ _ _ H2). }
  pose proof (level_spec_referential _ _ _ _ _ _ H2 P1 R1) as R2.
  apply level_spec_returns in H2 as (s2 & _ & P2 & _).
  apply first_id_present in P2.
  destruct H as [(e & -> & H3)|(n & -> & H3)];
    by apply (level_spec_referential _ _ _ _ _ _ H3).
Qed.

Lemma perform_referential op self :
  coherent self ->
  referential (working (_connection self)) ->
  referential (working (_connection (perform op self))).
Proof.
  intros C R. destruct op as [s|m]; cbn [perform].
  - rewrite register_sensor_closed_form.
    destruct (chain_spec s self) as [r c] eqn:H.
    pose proof (chain_spec_referential _ _ _ _ H R). by destruct r.
  - destruct (store_measurement m self) as [[[]|e] self'] eqn:H; cbn [snd].
    + apply store_measurement_returns in H
        as (t & i & f & _ & _ & _ & L & _ & ->).
      destruct R as (RT & RS & RM). repeat split; cbn; try done.
      intros m' Hin. apply elem_of_app in Hin as [Hin|Hin]; [by apply RM|].
      apply list_elem_of_singleton in Hin as ->. cbn.
      destruct (C Sensor_ _ _ L) as (s' & i' & _ & [= <-] & F).
      by apply first_id_present in F.
    + by apply store_measurement_raises in H as (-> & _).
Qed.

(** X9: referential integrity, which SQLite does not enforce here, is kept by
    the connector itself: from a database whose references are sound, after
    any sequence of registrations and stores on a new connector every type
    row with a units id, every sensor row and every measurement row
    references a row that exists. *)
Theorem referential_integrity_kept (conn : Connection) (ops : list operation) :
  referential (working conn) ->
  referential (working (_connection (run ops (new_connector conn)))).
Proof.
  intros R.
  assert (forall self, coherent self ->
            referential (working (_connection self)) ->
            referential (working (_connection (run ops self)))) as G.
  { induction ops as [|op ops IH]; intros self C R'; [done|].
    change (run (op :: ops) self) with (run ops (perform op self)).
    apply IH; [by apply perform_coherent|by apply perform_referential]. }
  apply G; [apply new_connector_coherent|exact R].
Qed.

Lemma referential_integrity_kept_witness :
  let m := {| get_id := Some "tempA"; get_timestamp := Some "t1";
              get_data := Some 20.0%float |} in
  referential
    (working (_connection
       (run [Register Examples.tempA; Store m] Examples.fresh))).
Proof.
  intros m.
  apply (referential_integrity_kept (connect empty_database)
           [Register Examples.tempA; Store m]).
  split; [|split]; cbn.
  - intros r z H _. by apply elem_of_nil in H.
  - intros r H. by apply elem_of_nil in H.
  - intros r H. by apply elem_of_nil in H.
Defined.

End ForeignKeys.

Section Construction.

Import Sqlite3 DatabaseConnector Resolution Operations.

(** X10: whatever the database file held, the first registration of a fully
    named sensor on a connector that [__init__] returned leaves exactly one
    row in each name table, each with id 1, committed, and the three caches
    hold exactly these ids. *)
Theorem first_registration_on_new_connector (globals : Globals)
  (file : Database) (c : Connector) (s : Sensor) (u t n : string) :
  __init__ globals file = Return c ->
  get_units s = Some u -> get_type s = Some t -> get_name s = Some n ->
  let c' := snd (register_sensor s c) in
  fst (register_sensor s c) = Return tt /\
  working (_connection c') =
    {| units := [{| row_id := 1; row_name := u; row_ref := None |}];
       type := [{| row_id := 1; row_name := t; row_ref := Some 1 |}];
       sensor := [{| row_id := 1; row_name := n; row_ref := Some 1 |}];
       measurement := [] |} /\
  committed (_connection c') = working (_connection c') /\
  _units c' = {[ Text u := Integer 1 ]} /\
  _types c' = {[ Text t := Integer 1 ]} /\
  _sensors c' = {[ Text n := Integer 1 ]}.
Proof.
  intros H Eu Et En. apply init_state in H as ->.
  rewrite register_sensor_closed_form.
  unfold chain_spec, bind, ret. rewrite Eu, Et, En.
  rewrite (level_spec_new Units u 0 _ 1) by reflexivity.
  cbv beta iota.
  rewrite (level_spec_new Type_ t 1 _ 1)
    by (rewrite rows_remember, rows_append_row_other by done; reflexivity).
  cbv beta iota.
  rewrite (level_spec_new Sensor_ n 1 _ 1)
    by (rewrite !rows_remember, !rows_append_row_other by done;
        rewrite !rows_remember, !rows_append_row_other by done; reflexivity).
  cbn [fst snd]. split; [done|].
  change (working (_connection (committing ?c))) with (working (_connection c)).
  change (committed (_connection (committing ?c)))
    with (working (_connection c)).
  split; [|split; [done|]].
  - rewrite connection_remember.
    cbn [append_row _connection working].
    unfold rows. rewrite !connection_remember.
    cbn [append_row _connection working]. rewrite !connection_remember.
    reflexivity.
  - pose proof (getattr_committing self_units) as Gu.
    pose proof (getattr_committing self_types) as Gt.
    pose proof (getattr_committing self_sensors) as Gs.
    cbn [getattr] in Gu, Gt, Gs. rewrite Gu, Gt, Gs. clear Gu Gt Gs.
    split; [|split].
    + change (_units ?c) with (getattr (cache Units) c).
      rewrite (getattr_remember_other Sensor_ Units) by done.
      rewrite getattr_append_row.
      rewrite (getattr_remember_other Type_ Units) by done.
      rewrite getattr_append_row, getattr_remember. reflexivity.
    + change (_types ?c) with (getattr (cache Type_) c).
      rewrite (getattr_remember_other Sensor_ Type_) by done.
      rewrite getattr_append_row, getattr_remember, getattr_append_row.
      rewrite (getattr_remember_other Units Type_) by done. reflexivity.
    + change (_sensors ?c) with (getattr (cache Sensor_) c).
      rewrite getattr_remember, getattr_append_row.
      rewrite (getattr_remember_other Type_ Sensor_) by done.
      rewrite getattr_append_row.
      rewrite (getattr_remember_other Units Sensor_) by done. reflexivity.
Qed.

Lemma first_registration_on_new_connector_witness :
  let file := {| units := [{| row_id := 7; row_name := "kelvin";
                              row_ref := None |}];
                 type := []; sensor := []; measurement := [] |} in
  exists c,
    __init__ Examples.provided file = Return c /\
    units (working (_connection (snd (register_sensor Examples.tempA c)))) =
    [{| row_id := 1; row_name := "celsius"; row_ref := None |}].
Proof.
  intros file. exists (new_connector (connect empty_database)).
  split; [reflexivity|].
  pose proof (first_registration_on_new_connector Examples.provided file
                (new_connector (connect empty_database)) Examples.tempA
                "celsius" "temperature" "tempA" eq_refl eq_refl eq_refl
                eq_refl) as (_ & H & _).
  rewrite H. reflexivity.
Defined.

End Construction.

Section RoundTrip.

Import Sqlite3 DatabaseConnector Resolution Operations.

(** X11: register, then store.  After a [register_sensor] that returned, on
    a connector used since construction for any calls, a
    [store_measurement] for that sensor name with a string timestamp and a
    float other than NaN acts under the id [i] of the sensor row of that
    name: if no measurement row has the pair (timestamp, [i]) it returns
    and stores the row with that pair and the float as the REAL column
    keeps it ([real_affinity]), whatever is stored under the same timestamp
    for other sensors; if a row has the pair it raises [IntegrityError] and
    changes nothing. *)
Theorem store_after_register (conn : Connection) (ops : list operation)
  (s : Sensor) (m : Measurement) (n t : string) (f : float)
  (self' : Connector) :
  register_sensor s (run ops (new_connector conn)) = (Return tt, self') ->
  get_name s = Some n -> get_id m = Some n ->
  get_timestamp m = Some t -> get_data m = Some f ->
  PrimFloat.is_nan f = false ->
  exists i,
    first_id (sensor (working (_connection self'))) n = Some i /\
    store_measurement m self' =
    if existsb (same_key t i) (measurement (working (_connection self')))
    then (Raise IntegrityError, self')
    else (Return tt, stored t i (real_affinity f) self').
Proof.
  intros H En Ei Et Ef N.
  assert (coherent self') as C.
  { pose proof (perform_coherent (Register s) _
                  (run_coherent ops _ (new_connector_coherent conn))) as C.
    cbn [perform] in C. by rewrite H in C. }
  rewrite register_sensor_closed_form in H.
  destruct (chain_spec s (run ops (new_connector conn)))
    as [[ids|e] c] eqn:Hc; [|done].
  simplify_eq.
  destruct (chain_spec_returns _ _ _ _ Sensor_ Hc) as (n' & En' & R & L).
  cbn [level_name] in En'. rewrite En in En'. simplify_eq.
  cbn [cache getattr] in L.
  destruct (_sensors c !! Text n') as [v|] eqn:L'; [|done].
  destruct (C Sensor_ (Text n') v) as (s' & i & ? & -> & R').
  { by rewrite getattr_committing. }
  simplify_eq. exists i. split; [exact R'|].
  assert (_sensors (committing c) !! str_or_None (get_id m) = Some (Integer i))
    as Li by (rewrite Ei; exact L').
  destruct (existsb _ _) eqn:K.
  - by apply (store_measurement_present _ _ t i).
  - by apply store_measurement_succeeds.
Qed.

Lemma store_after_register_witness :
  let tempB := {| get_name := Some "tempB"; get_type := Some "temperature";
                  get_units := Some "celsius" |} in
  let m1 := {| get_id := Some "tempA"; get_timestamp := Some "t1";
               get_data := Some 20.0%float |} in
  let m := {| get_id := Some "tempB"; get_timestamp := Some "t1";
              get_data := Some 20.5%float |} in
  let self' := snd (register_sensor tempB
                      (run [Register Examples.tempA; Store m1]
                         Examples.fresh)) in
  exists i,
    first_id (sensor (working (_connection self'))) "tempB" = Some i /\
    store_measurement m self' =
    if existsb (same_key "t1" i) (measurement (working (_connection self')))
    then (Raise IntegrityError, self')
    else (Return tt, stored "t1" i (real_affinity 20.5%float) self').
Proof.
  intros tempB m1 m self'.
  apply (store_after_register (connect empty_database)
           [Register Examples.tempA; Store m1] tempB m
           "tempB" "t1" 20.5%float self'); reflexivity.
Defined.

End RoundTrip.

Section PostgresFailures.

Import Psycopg2 PostgreSQLConnector PostgreSQLStore.

Variable gen : level -> list row -> Z.

Lemma pg_register_sensor_failed s self :
  failed (_connection self) = true ->
  register_sensor gen s self = (Raise InternalError, self).
Proof.
  intros F. destruct self as [[cm wk fl] du dt ds]. cbn in F. subst fl.
  reflexivity.
Qed.

Lemma pg_store_measurement_failed stored_real m self :
  failed (_connection self) = true ->
  store_measurement stored_real m self =
  (Raise (if bool_decide (_sensors self !! str_or_None (get_id m) = None)
          then KeyError else InternalError), self).
Proof.
  intros F. destruct self as [[cm wk fl] du dt ds]. cbn in F. subst fl.
  unfold store_measurement, bind, getitem. cbn [getattr _sensors].
  destruct (ds !! str_or_None (get_id m)) eqn:L; reflexivity.
Qed.

End PostgresFailures.

Section PostgresOutcomes.

Import Psycopg2 PostgreSQLConnector PostgreSQLStore.

Variable gen : level -> list row -> Z.

(** X12: on a [PostgreSQLConnector] whose transaction has not failed, a
    registration with a missing name raises [IntegrityError] and leaves the
    transaction failed; as the class never rolls back, every later
    [register_sensor] raises [InternalError] and every later
    [store_measurement] raises, all without any effect. *)
Theorem postgres_error_disables_connector (s : Sensor) (self : Connector) :
  failed (_connection self) = false ->
  get_units s = None \/ get_type s = None \/ get_name s = None ->
  let self' := snd (register_sensor gen s self) in
  fst (register_sensor gen s self) = Raise IntegrityError /\
  (forall s', register_sensor gen s' self' = (Raise InternalError, self')) /\
  (forall stored_real m,
     exists e, store_measurement stored_real m self' = (Raise e, self')).
Proof.
  intros F N self'.
  destruct (pg_register_sensor_outcome gen s self F)
    as [(_ & _ & Nu & Nt & Nn)|[H F']].
  { destruct N as [N|[N|N]]; congruence. }
  split; [exact H|]. split.
  - intros s'. by apply pg_register_sensor_failed.
  - intros stored_real m. eexists.
    by apply pg_store_measurement_failed.
Qed.

End PostgresOutcomes.

Lemma postgres_error_disables_connector_witness :
  let s := {| get_name := Some "tempA"; get_type := None;
              get_units := Some "celsius" |} in
  let self' := snd (PostgreSQLConnector.register_sensor rowid_generator s
                      (PostgreSQLConnector.__init__ empty_database)) in
  PostgreSQLConnector.register_sensor rowid_generator Examples.tempA self'
  = (Raise InternalError, self').
Proof.
  intros s self'.
  apply (postgres_error_disables_connector rowid_generator s
           (PostgreSQLConnector.__init__ empty_database)).
  - reflexivity.
  - right. left. reflexivity.
Defined.

Section PostgresStore.

Import Psycopg2 PostgreSQLConnector PostgreSQLStore.

Variable gen : level -> list row -> Z.
Variable stored_real : float -> float.

Lemma pg_helper_keys items table cols cn d self r self' a k :
  insert_and_recall_id gen items table cols cn d self = (r, self') ->
  getattr a self' !! k <> None ->
  getattr a self !! k <> None \/ (a = d /\ items !! 0%nat = Some k).
Proof.
  unfold insert_and_recall_id, recall_id, bind.
  pose proof (pg_insert_items_getattr gen items table cols cn a self) as G1.
  destruct (insert_items gen items table cols cn self) as [[c|e] s1];
    cbn [snd] in G1; [|intros [= _ <-]; rewrite G1; tauto].
  pose proof (pg_select_items_getattr gen items table a s1) as G2.
  destruct (select_items gen items table s1) as [[curs|e] s2];
    cbn [snd] in G2; [|intros [= _ <-]; rewrite G2, G1; tauto].
  unfold subscript, index, ret, raise, gets.
  destruct (fetchone curs) as [tuple|];
    [|intros [= _ <-]; rewrite G2, G1; tauto].
  destruct (tuple !! 0%nat) as [v|];
    [|intros [= _ <-]; rewrite G2, G1; tauto].
  destruct (items !! 0%nat) as [i0|];
    [|intros [= _ <-]; rewrite G2, G1; tauto].
  case_bool_decide as E; [|intros [= _ <-]; rewrite G2, G1; tauto].
  unfold setitem, modify. intros [= _ <-].
  destruct a, d; cbn [getattr _units _types _sensors] in *;
    rewrite <-G1, <-G2; try tauto;
    (destruct (decide (k = i0)) as [->|N];
     [by right | rewrite lookup_insert_ne by done; tauto]).
Qed.

Lemma pg_register_sensor_keys s self k :
  _sensors (snd (register_sensor gen s self)) !! k <> None ->
  _sensors self !! k <> None \/ k = str_or_None (get_name s).
Proof.
  unfold register_sensor, resolve_chain, bind.
  destruct (insert_and_recall_id gen [str_or_None (get_units s)] "units"
              ["name"] "units_name_key" self_units self)
    as [[u|e] c1] eqn:H1.
  2:{ cbn [snd]. intros H.
      destruct (pg_helper_keys _ _ _ _ _ _ _ _ self_sensors k H1 H)
        as [?|[? _]]; [tauto|done]. }
  destruct (insert_and_recall_id gen [str_or_None (get_type s); u] "type"
              ["name"; "units"] "type_name_key" self_types c1)
    as [[t|e] c2] eqn:H2.
  2:{ cbn [snd]. intros H.
      destruct (pg_helper_keys _ _ _ _ _ _ _ _ self_sensors k H2 H)
        as [H'|[? _]]; [|done].
      destruct (pg_helper_keys _ _ _ _ _ _ _ _ self_sensors k H1 H')
        as [?|[? _]]; [tauto|done]. }
  destruct (insert_and_recall_id gen [str_or_None (get_name s); t] "sensor"
              ["name"; "type"] "sensor_name_key" self_sensors c2)
    as [[n|e] c3] eqn:H3.
  all: assert (_sensors c3 !! k <> None ->
               _sensors self !! k <> None \/ k = str_or_None (get_name s))
         as HH.
  1,3: intros H;
       destruct (pg_helper_keys _ _ _ _ _ _ _ _ self_sensors k H3 H)
         as [H'|[_ [= <-]]]; [|tauto];
       destruct (pg_helper_keys _ _ _ _ _ _ _ _ self_sensors k H2 H')
         as [H''|[? _]]; [|done];
       destruct (pg_helper_keys _ _ _ _ _ _ _ _ self_sensors k H1 H'')
         as [?|[? _]]; [tauto|done].
  - destruct c3 as [conn du dt ds]. cbn. exact HH.
  - cbn [snd]. exact HH.
Qed.

Lemma pg_store_measurement_sensors m self :
  _sensors (snd (store_measurement stored_real m self)) = _sensors self.
Proof.
  unfold store_measurement, bind, getitem, on_connection.
  destruct (getattr self_sensors self !! _) as [v|]; [|done].
  destruct (execute_insert_measurement stored_real _ v _ (_connection self))
    as [[c|e] conn]; [|done].
  cbn [_connection]. by destruct (commit conn) as [[[]|e] conn'].
Qed.

Lemma pg_run_sensor_keys ops self k :
  _sensors (PostgreSQLRuns.run gen stored_real ops self) !! k <> None ->
  _sensors self !! k <> None \/
  exists s, In (Register s) ops /\ k = str_or_None (get_name s).
Proof.
  revert self. induction ops as [|op ops IH]; intros self; [by left|].
  cbn. intros H. apply IH in H as [H|(s & Hin & ->)].
  - destruct op as [s|m]; cbn in H.
    + apply pg_register_sensor_keys in H as [H| ->]; [by left|].
      right. exists s. by split; [left|].
    + left. by rewrite pg_store_measurement_sensors in H.
  - right. exists s. by split; [right|].
Qed.

(** X13: on a [PostgreSQLConnector] used, since its construction, for any
    sequence of registrations and stores in which no registration carried
    the name of [m], [store_measurement m] raises [KeyError] and leaves the
    state unchanged. *)
Theorem postgres_store_measurement_unregistered (database : Database)
  (ops : list operation) (m : Measurement) :
  (forall s, In (Register s) ops -> get_name s <> get_id m) ->
  let self := PostgreSQLRuns.run gen stored_real ops (__init__ database) in
  store_measurement stored_real m self = (Raise KeyError, self).
Proof.
  intros Hnot self.
  assert (_sensors self !! str_or_None (get_id m) = None) as L.
  { destruct (_sensors self !! str_or_None (get_id m)) eqn:E; [|done].
    exfalso.
    destruct (pg_run_sensor_keys ops (__init__ database)
                (str_or_None (get_id m))) as [H|(s & Hin & H)].
    - fold self. by rewrite E.
    - by apply H.
    - apply (Hnot s Hin).
      destruct (get_name s), (get_id m); cbn in H; congruence. }
  unfold store_measurement, bind, getitem. cbn [getattr]. by rewrite L.
Qed.

End PostgresStore.

Lemma postgres_store_measurement_unregistered_witness :
  let m := {| get_id := Some "tempB"; get_timestamp := Some "t1";
              get_data := Some 20.0%float |} in
  let self := PostgreSQLRuns.run rowid_generator (fun f => f)
                [Register Examples.tempA]
                (PostgreSQLConnector.__init__ empty_database) in
  PostgreSQLStore.store_measurement (fun f => f) m self
  = (Raise KeyError, self).
Proof.
  intros m self.
  apply (postgres_store_measurement_unregistered rowid_generator (fun f => f)
           empty_database [Register Examples.tempA] m).
  intros s [[= <-]|[]]. discriminate.
Defined.

Section PostgresDuplicates.

Import Psycopg2 PostgreSQLConnector PostgreSQLStore.

Variable gen : level -> list row -> Z.
Variable stored_real : float -> float.

Lemma pg_store_measurement_returns m self self' :
  store_measurement stored_real m self = (Return tt, self') ->
  exists t i f,
    get_timestamp m = Some t /\ get_data m = Some f /\
    failed (_connection self) = false /\
    _sensors self !! str_or_None (get_id m) = Some (Integer i) /\
    let db := with_measurement
                (measurement (working (_connection self)) ++
                 [{| m_timestamp := t; m_sensor := i;
                     m_value := stored_real f |}])%list
                (working (_connection self)) in
    self' = {| _connection := {| committed := db; working := db;
                                 failed := false |};
               _units := _units self; _types := _types self;
               _sensors := _sensors self |}.
Proof.
  unfold store_measurement, bind, getitem, on_connection,
    execute_insert_measurement, insert_measurement, commit, modify, ret.
  cbn [getattr].
  destruct self as [[cm wk fl] du dt ds]; cbn.
  destruct (ds !! str_or_None (get_id m)) as [v|]; [|discriminate].
  destruct fl; [discriminate|].
  destruct (get_timestamp m) as [t|]; cbn [str_or_None];
    [|destruct v; discriminate].
  destruct v as [|i|]; try discriminate.
  destruct (get_data m) as [f|]; [|discriminate].
  destruct (existsb _ _) eqn:K; [discriminate|].
  destruct (id_present _ _); cbn; [|discriminate].
  intros [= <-]. by exists t, i, f.
Qed.

(** X14: on a [PostgreSQLConnector], a second [store_measurement] with the
    sensor name and timestamp of one that returned raises [IntegrityError],
    changes nothing committed and leaves the transaction failed: every later
    [register_sensor] and [store_measurement] on the connector raises. *)
Theorem postgres_duplicate_measurement (m1 m2 : Measurement)
  (self self' : Connector) :
  get_id m2 = get_id m1 ->
  get_timestamp m2 = get_timestamp m1 ->
  store_measurement stored_real m1 self = (Return tt, self') ->
  let self'' := snd (store_measurement stored_real m2 self') in
  fst (store_measurement stored_real m2 self') = Raise IntegrityError /\
  failed (_connection self'') = true /\
  committed (_connection self'') = committed (_connection self') /\
  (forall s, register_sensor gen s self'' = (Raise InternalError, self'')) /\
  (forall m, exists e,
     store_measurement stored_real m self'' = (Raise e, self'')).
Proof.
  intros Ei Et H.
  apply pg_store_measurement_returns in H
    as (t & i & f & Ht & Hf & F & L & ->).
  cbv zeta.
  set (db := with_measurement
               (measurement (working (_connection self)) ++
                [{| m_timestamp := t; m_sensor := i;
                    m_value := stored_real f |}])%list
               (working (_connection self))).
  assert (store_measurement stored_real m2
            {| _connection := {| committed := db; working := db;
                                 failed := false |};
               _units := _units self; _types := _types self;
               _sensors := _sensors self |} =
          (Raise IntegrityError,
           {| _connection := {| committed := db; working := db;
                                failed := true |};
              _units := _units self; _types := _types self;
              _sensors := _sensors self |})) as E.
  { unfold store_measurement, bind, getitem, on_connection,
      execute_insert_measurement, insert_measurement.
    cbn [getattr _sensors _connection failed working].
    rewrite Ei, L, Et, Ht. cbn [str_or_None].
    destruct (get_data m2) as [f2|]; [|done].
    cbn [getattr _sensors _connection failed working].
    assert (existsb (Sqlite3.same_key t i) (measurement db) = true) as ->
      by apply existsb_same_key_app.
    done. }
  rewrite E. cbn [fst snd]. split; [done|]. split; [done|].
  split; [done|]. split.
  - intros s. by apply pg_register_sensor_failed.
  - intros m. eexists. by apply pg_store_measurement_failed.
Qed.

End PostgresDuplicates.

Lemma postgres_duplicate_measurement_witness :
  let self := snd (PostgreSQLConnector.register_sensor rowid_generator
                     Examples.tempA
                     (PostgreSQLConnector.__init__ empty_database)) in
  let m1 := {| get_id := Some "tempA"; get_timestamp := Some "t1";
               get_data := Some 21.5%float |} in
  let m2 := {| get_id := Some "tempA"; get_timestamp := Some "t1";
               get_data := Some 22.5%float |} in
  let self' := snd (PostgreSQLStore.store_measurement (fun f => f) m1 self) in
  fst (PostgreSQLStore.store_measurement (fun f => f) m2 self')
  = Raise IntegrityError.
Proof.
  intros self m1 m2 self'.
  apply (postgres_duplicate_measurement rowid_generator (fun f => f) m1 m2
           self self'); reflexivity.
Defined.

Lemma string_append_assoc (a b c : string) :
  ((a ++ b) ++ c)%string = (a ++ (b ++ c))%string.
Proof.
  induction a as [|x a IH]; [reflexivity|].
  change (String x ((a ++ b) ++ c) = String x (a ++ (b ++ c)))%string.
  f_equal. exact IH.
Qed.

(** X15: the connection string of [PostgreSQLConnector.__init__] is a plain
    concatenation, its parts are not escaped: a [":"] moved between user and
    password, or a ["/"] between host and database name, gives the same
    string. *)
Theorem dsn_does_not_escape (dbname host user password x : string) :
  PostgreSQLStore.dsn dbname host (user ++ ":" ++ x) password =
  PostgreSQLStore.dsn dbname host user (x ++ ":" ++ password) /\
  PostgreSQLStore.dsn dbname (x ++ "/" ++ host) user password =
  PostgreSQLStore.dsn (host ++ "/" ++ dbname) x user password.
Proof.
  unfold PostgreSQLStore.dsn. split.
  - rewrite !string_append_assoc. reflexivity.
  - rewrite !string_append_assoc. reflexivity.
Qed.
